(** * nftns: namespace-scoped read/apply of an nftables configuration

    A shallow embedding of [nft/nftns/nftns.go].  The package keeps two
    process-wide variables ([NSEnterBinPath], [NFTBinPath]), allocates
    [Config] values behind pointers, and talks to the outside world in three
    ways: [exec.LookPath], the trace logger, and [Cmd.Run] of os/exec.  The
    embedding threads a [World] (globals, heap of [Config] objects, trace of
    outside calls) through a small state-and-panic monad. *)

From Stdlib Require Import String Ascii List.
From stdpp Require Import base option strings list gmap fin_maps.

(** ** Go values *)

(** A Go [error] value: either a plain message ([errors.New], [fmt.Errorf]
    without a [%w] verb) or a message around another error ([fmt.Errorf]
    with one [%w] verb).  Errors made elsewhere arrive in the same shape. *)
Inductive error : Type :=
| errorString (msg : string)
| wrapError (msg : string) (err : error).

(** [err.Error()] *)
Definition Error (e : error) : string :=
  match e with
  | errorString msg => msg
  | wrapError msg _ => msg
  end.

(** [errors.Unwrap(err)] *)
Definition Unwrap (e : error) : option error :=
  match e with
  | errorString _ => None
  | wrapError _ err => Some err
  end.

Definition errors_New (msg : string) : error := errorString msg.

(** [fmt.Errorf] with one [%w] verb: [msg] is the formatted text, [err] the
    operand of [%w]. *)
Definition fmt_Errorf_w (msg : string) (err : error) : error :=
  wrapError msg err.

(** [fmt.Errorf] without a [%w] verb: [msg] is the formatted text. *)
Definition fmt_Errorf (msg : string) : error := errorString msg.

(** A [[]byte] is [option string]: [None] is the nil slice, [Some] of the
    empty string an empty, non-nil one.  [string(b)] is the empty string on
    nil. *)
Definition string_of_bytes (b : option string) : string :=
  default EmptyString b.

(** [strings.Join(elems, sep)]. *)
Definition strings_Join (elems : list string) (sep : string) : string :=
  String.concat sep elems.

(** [%v] of a [[]string]: the elements between brackets, space separated. *)
Definition fmt_v_strings (l : list string) : string :=
  "[" +:+ strings_Join l " " +:+ "]".

(** [strings.Contains(s, substr)] as a proposition. *)
Definition Contains (s substr : string) : Prop :=
  ∃ pre post, s = pre +:+ substr +:+ post.

(** ** path/filepath.Base (Unix), used by [exec.Command] *)

Definition is_slash (c : ascii) : bool := Ascii.eqb c "/"%char.

(** Drops the trailing slashes of a path. *)
Fixpoint strip_trailing_slashes (path : string) : string :=
  match path with
  | EmptyString => EmptyString
  | String c rest =>
      match strip_trailing_slashes rest with
      | EmptyString => if is_slash c then EmptyString else String c EmptyString
      | r => String c r
      end
  end.

(** The part of [path] after its last slash; [None] when there is none. *)
Fixpoint after_last_slash (path : string) : option string :=
  match path with
  | EmptyString => None
  | String c rest =>
      match after_last_slash rest with
      | Some r => Some r
      | None => if is_slash c then Some rest else None
      end
  end.

Definition filepath_Base (path : string) : string :=
  if String.eqb path EmptyString then "." else
  let path := strip_trailing_slashes path in
  let path := default path (after_last_slash path) in
  if String.eqb path EmptyString then "/" else path.

(** ** os/exec *)

(** The fields of [exec.Cmd] the package reads or writes.  [Stdin] is [None]
    when no reader is attached.  Stdout and Stderr are always attached to
    fresh buffers by [execCommand]; their contents come back in
    [ProcResult]. *)
Record Cmd : Type := {
  Path : string;
  Args : list string;
  Stdin : option string;
  Err : option error
}.

Definition Cmd_set_Stdin (c : Cmd) (input : option string) : Cmd :=
  {| Path := Path c; Args := Args c; Stdin := input; Err := Err c |}.

(** What [cmd.Run()] leaves behind: its error and the two capture buffers. *)
Record ProcResult : Type := {
  run_err : option error;
  run_stdout : string;
  run_stderr : string
}.

(** Calls that leave the package, in program order. *)
Inductive Event : Type :=
| EvLookPath (file : string)
| EvTrace (msg : string)
| EvRun (cmd : Cmd).

(** The [cmd.Run()] calls of a trace.  A process is started only inside
    [Run], so a trace without them has started no process. *)
Fixpoint run_calls (evs : list Event) : list Cmd :=
  match evs with
  | [] => []
  | EvRun c :: evs' => c :: run_calls evs'
  | _ :: evs' => run_calls evs'
  end.

(** The [exec.LookPath] calls of a trace. *)
Fixpoint lookups (evs : list Event) : list string :=
  match evs with
  | [] => []
  | EvLookPath f :: evs' => f :: lookups evs'
  | _ :: evs' => lookups evs'
  end.

(** The operating system, as [os/exec] sees it.  Both answers may depend on
    everything that happened before the call. *)
Class Host : Type := {
  os_LookPath : list Event → string → string * option error;
  os_Run : list Event → Cmd → ProcResult
}.

(** ** The schema collaborator *)

(** Modelled from the spec: [nftconfig.Config] is declared outside this
    file; the package only touches its promoted field [Nftables], "an ordered
    sequence of ruleset-entity records".  [None] is the nil slice. *)
Record nftconfig_Config (Nftable : Type) : Type := {
  Nftables : option (list Nftable)
}.
Arguments Nftables {Nftable} _.
Arguments Build_nftconfig_Config {Nftable} _.

(** Modelled from the spec: the entity type [schema.Nftable] and the
    "opaque encode/decode boundary ([ToJSON() → bytes],
    [FromJSON(bytes) → error])" of [nftconfig.Config].  Both methods have the
    embedded [nftconfig.Config] as receiver; [FromJSON] may change it, so it
    returns the receiver it leaves behind. *)
Class Schema : Type := {
  Nftable : Type;
  ToJSON : nftconfig_Config Nftable → option string * option error;
  FromJSON : nftconfig_Config Nftable → string →
             nftconfig_Config Nftable * option error
}.

(** What a call leaves: a value, or a run-time panic. *)
Inductive result (A : Type) : Type :=
| Val (a : A)
| Panic (msg : string).
Arguments Val {A} _.
Arguments Panic {A} _.

Section Nftns.
Context {host : Host} {schema : Schema}.

(** ** Package state *)

(** [type Config struct { nftconfig.Config; NetNSPath string `json:"-"` }] *)
Record Config : Type := {
  Config_Config : nftconfig_Config Nftable;
  NetNSPath : string
}.

(** A [*Config]. *)
Inductive ptr : Type :=
| nilptr
| Ptr (l : positive).

Record World : Type := {
  NSEnterBinPath : string;
  NFTBinPath : string;
  heap : gmap positive Config;
  events : list Event
}.

(** ** Computations: state passing with panics *)

Definition Go (A : Type) : Type := World → result A * World.

#[global] Instance Go_ret : MRet Go := λ A a w, (Val a, w).
#[global] Instance Go_bind : MBind Go := λ A B f m w,
  match m w with
  | (Val a, w') => f a w'
  | (Panic msg, w') => (Panic msg, w')
  end.

Definition panic {A} (msg : string) : Go A := λ w, (Panic msg, w).

Definition get_NSEnterBinPath : Go string := λ w, (Val (NSEnterBinPath w), w).
Definition get_NFTBinPath : Go string := λ w, (Val (NFTBinPath w), w).

Definition set_NSEnterBinPath (path : string) : Go unit := λ w,
  (Val tt, {| NSEnterBinPath := path; NFTBinPath := NFTBinPath w;
              heap := heap w; events := events w |}).

Definition set_NFTBinPath (path : string) : Go unit := λ w,
  (Val tt, {| NSEnterBinPath := NSEnterBinPath w; NFTBinPath := path;
              heap := heap w; events := events w |}).

Definition record (ev : Event) (w : World) : World :=
  {| NSEnterBinPath := NSEnterBinPath w; NFTBinPath := NFTBinPath w;
     heap := heap w; events := events w ++ [ev] |}.

(** [w] with [evs] appended to its trace. *)
Definition record_all (evs : list Event) (w : World) : World :=
  {| NSEnterBinPath := NSEnterBinPath w; NFTBinPath := NFTBinPath w;
     heap := heap w; events := events w ++ evs |}.

Definition set_heap (h : gmap positive Config) (w : World) : World :=
  {| NSEnterBinPath := NSEnterBinPath w; NFTBinPath := NFTBinPath w;
     heap := h; events := events w |}.

(** [&Config{...}]: a new object at an address not in use. *)
Definition alloc (c : Config) : Go ptr := λ w,
  let l := fresh (dom (heap w)) in
  (Val (Ptr l), set_heap (<[l := c]> (heap w)) w).

(** [*p]; a nil pointer dereference panics.  Go has no pointer to an object
    that is gone; an address outside the heap is treated like nil. *)
Definition load (p : ptr) : Go Config := λ w,
  match p with
  | nilptr => (Panic "nil pointer dereference", w)
  | Ptr l =>
      match heap w !! l with
      | Some c => (Val c, w)
      | None => (Panic "nil pointer dereference", w)
      end
  end.

(** [*p = c] *)
Definition store (p : ptr) (c : Config) : Go unit := λ w,
  match p with
  | nilptr => (Panic "nil pointer dereference", w)
  | Ptr l =>
      match heap w !! l with
      | Some _ => (Val tt, set_heap (<[l := c]> (heap w)) w)
      | None => (Panic "nil pointer dereference", w)
      end
  end.

(** ** The outside calls *)

(** [exec.LookPath(file)] *)
Definition exec_LookPath (file : string) : Go (string * option error) := λ w,
  (Val (os_LookPath (events w) file), record (EvLookPath file) w).

(** [Logger.Trace().Msgf(...)], with the formatted message. *)
Definition Logger_Trace_Msgf (msg : string) : Go unit := λ w,
  (Val tt, record (EvTrace msg) w).

(** [exec.Command(name, arg...)]: [Args] is the name followed by the
    arguments; a name without directory part is looked up, and a failed
    lookup is kept in [Err] for [Run] to report. *)
Definition exec_Command (name : string) (arg : list string) : Go Cmd :=
  if String.eqb (filepath_Base name) name then
    '(lp, err) ← exec_LookPath name;
    mret {| Path := if String.eqb lp EmptyString then name else lp;
            Args := name :: arg; Stdin := None; Err := err |}
  else
    mret {| Path := name; Args := name :: arg; Stdin := None; Err := None |}.

(** The result of [cmd.Run()] after the history [h]: an [Err] left by
    [exec.Command] or an empty [Path] fails before anything is started
    (the buffers stay empty); otherwise the host runs the command. *)
Definition run_result (h : list Event) (cmd : Cmd) : ProcResult :=
  match Err cmd with
  | Some e =>
      {| run_err := Some e;
         run_stdout := EmptyString; run_stderr := EmptyString |}
  | None =>
      if String.eqb (Path cmd) EmptyString then
        {| run_err := Some (errors_New "exec: no command");
           run_stdout := EmptyString; run_stderr := EmptyString |}
      else os_Run h cmd
  end.

(** [cmd.Run()] *)
Definition Cmd_Run (cmd : Cmd) : Go ProcResult := λ w,
  (Val (run_result (events w) cmd), record (EvRun cmd) w).

(** ** The package *)

Definition cmdFile : string := "-f".
Definition cmdJSON : string := "-j".
Definition cmdList : string := "list".
Definition cmdRuleset : string := "ruleset".
Definition cmdStdin : string := "-".

(** The package-level [var] block, before [init] runs. *)
Definition initial_World : World :=
  {| NSEnterBinPath := "nsenter"; NFTBinPath := "nft";
     heap := ∅; events := [] |}.

(** [func init()]: both lookup errors are dropped, the returned paths are
    stored whatever they are. *)
Definition init : Go unit :=
  '(path, _) ← exec_LookPath "nsenter";
  set_NSEnterBinPath path;;
  '(path, _) ← exec_LookPath "nft";
  set_NFTBinPath path.

(** [c.ToJSON()] on a [*Config]: the method is promoted from the embedded
    [nftconfig.Config], which is its receiver. *)
Definition Config_ToJSON (c : ptr) : Go (option string * option error) :=
  obj ← load c;
  mret (ToJSON (Config_Config obj)).

(** [c.FromJSON(data)] on a [*Config]: promoted likewise; the embedded
    value is updated in place. *)
Definition Config_FromJSON (c : ptr) (data : string) : Go (option error) :=
  obj ← load c;
  let '(cfg, err) := FromJSON (Config_Config obj) data in
  store c {| Config_Config := cfg; NetNSPath := NetNSPath obj |};;
  mret err.

(** A [Config] bound to [netNSPath] with the entity sequence [nftables];
    [New] makes two of them, [&Config{NetNSPath: netNSPath}] and the same
    with [Nftables] set.  Used to state what [New] leaves in the heap. *)
Definition fresh_Config (netNSPath : string)
    (nftables : option (list Nftable)) : Config :=
  {| Config_Config := {| Nftables := nftables |}; NetNSPath := netNSPath |}.

(** [func New(netNSPath string) ( *Config, error )] *)
Definition New (netNSPath : string) : Go (ptr * option error) :=
  c ← alloc {| Config_Config := {| Nftables := None |};
               NetNSPath := netNSPath |};
  nsenter ← get_NSEnterBinPath;
  failed ← (if String.eqb nsenter EmptyString then
              '(path, err) ← exec_LookPath "nsenter";
              match err with
              | Some e => mret (Some e)
              | None => set_NSEnterBinPath path;; mret None
              end
            else mret None);
  match failed with
  | Some e => mret (nilptr, Some e)
  | None =>
      obj ← load c;
      store c {| Config_Config := {| Nftables := Some [] |};
                 NetNSPath := NetNSPath obj |};;
      mret (c, None)
  end.

(** The error [execCommand] builds when [cmd.Run()] fails with [err]:
    [fmt.Errorf("failed to execute %s %s: %w stdin:'%s' stdout:'%s'
    stderr:'%s'", cmd.Path, strings.Join(cmd.Args, " "), err, string(input),
    stdout.String(), stderr.String())]. *)
Definition failed_to_execute (cmd : Cmd) (input : option string)
    (r : ProcResult) (err : error) : error :=
  fmt_Errorf_w
    ("failed to execute " +:+ Path cmd +:+ " " +:+
     strings_Join (Args cmd) " " +:+ ": " +:+ Error err +:+
     " stdin:'" +:+ string_of_bytes input +:+
     "' stdout:'" +:+ run_stdout r +:+
     "' stderr:'" +:+ run_stderr r +:+ "'") err.

(** [func execCommand(netNSPath string, input []byte, args ...string)
    ( *bytes.Buffer, error )]; the returned buffer is given by its contents,
    [None] being the nil pointer. *)
Definition execCommand (netNSPath : string) (input : option string)
    (args : list string) : Go (option string * option error) :=
  nft ← get_NFTBinPath;
  let fullArgs := ["--net=" +:+ netNSPath; "--"; nft] ++ args in
  nsenter ← get_NSEnterBinPath;
  Logger_Trace_Msgf ("Running nsenter command: " +:+ nsenter +:+ " " +:+
                     fmt_v_strings fullArgs);;
  cmd ← exec_Command nsenter fullArgs;
  let cmd := match input with
             | Some _ => Cmd_set_Stdin cmd input
             | None => cmd
             end in
  r ← Cmd_Run cmd;
  match run_err r with
  | Some err => mret (None, Some (failed_to_execute cmd input r err))
  | None => mret (Some (run_stdout r), None)
  end.

(** [func ReadConfig(netNSPath string) ( *Config, error )] *)
Definition ReadConfig (netNSPath : string) : Go (ptr * option error) :=
  '(stdout, err) ← execCommand netNSPath None [cmdJSON; cmdList; cmdRuleset];
  match err with
  | Some e => mret (nilptr, Some e)
  | None =>
      '(config, err) ← New netNSPath;
      match err with
      | Some e => mret (nilptr, Some e)
      | None =>
          data ← match stdout with
                 | Some b => mret b
                 | None => panic "nil pointer dereference"
                 end;
          err ← Config_FromJSON config data;
          match err with
          | Some e =>
              mret (nilptr,
                    Some (fmt_Errorf ("failed to list ruleset: " +:+ Error e)))
          | None => mret (config, None)
          end
      end
  end.

(** [func ApplyConfig(c *Config) error] *)
Definition ApplyConfig (c : ptr) : Go (option error) :=
  '(data, err) ← Config_ToJSON c;
  match err with
  | Some e => mret (Some e)
  | None =>
      obj ← load c;
      '(_, err) ← execCommand (NetNSPath obj) data [cmdJSON; cmdFile; cmdStdin];
      match err with
      | Some e => mret (Some e)
      | None => mret None
      end
  end.

End Nftns.

(** ** Sample hosts and a sample schema *)

Definition usr_sbin (file : string) : string * option error :=
  ("/usr/sbin/" +:+ file, None).

(** Both tools are installed; the ruleset tool prints one table. *)
Definition good_host : Host := {|
  os_LookPath := λ _ file, usr_sbin file;
  os_Run := λ _ _, {| run_err := None;
                      run_stdout := "[table ip filter]";
                      run_stderr := EmptyString |}
|}.

(** Both tools are installed; the ruleset tool rejects what it is given. *)
Definition rejecting_host : Host := {|
  os_LookPath := λ _ file, usr_sbin file;
  os_Run := λ _ _, {| run_err := Some (errorString "exit status 1");
                      run_stdout := EmptyString;
                      run_stderr := "Error: syntax error" |}
|}.

(** Both tools are installed; the ruleset tool prints a single [x]. *)
Definition garbling_host : Host := {|
  os_LookPath := λ _ file, usr_sbin file;
  os_Run := λ _ _, {| run_err := None;
                      run_stdout := "x";
                      run_stderr := EmptyString |}
|}.

(** No tool can be found. *)
Definition bare_host : Host := {|
  os_LookPath := λ _ file,
    (EmptyString,
     Some (errorString
             ("exec: " +:+ file +:+ ": executable file not found in $PATH")));
  os_Run := λ _ _, {| run_err := Some (errorString "fork/exec: no such file");
                      run_stdout := EmptyString;
                      run_stderr := EmptyString |}
|}.

(** The tools are installed late: the first three lookups of the process
    find nothing, the later ones do.  Whatever is run succeeds silently. *)
Definition late_host : Host := {|
  os_LookPath := λ h file,
    if Nat.ltb (length (lookups h)) 3 then
      (EmptyString,
       Some (errorString
               ("exec: " +:+ file +:+ ": executable file not found in $PATH")))
    else usr_sbin file;
  os_Run := λ _ _, {| run_err := None;
                      run_stdout := EmptyString;
                      run_stderr := EmptyString |}
|}.

(** The namespace-entry tool is installed, the ruleset tool is not; what
    is run fails inside the namespace. *)
Definition no_nft_host : Host := {|
  os_LookPath := λ _ file,
    if String.eqb file "nft" then
      (EmptyString,
       Some (errorString "exec: nft: executable file not found in $PATH"))
    else usr_sbin file;
  os_Run := λ _ _, {| run_err := Some (errorString "exit status 127");
                      run_stdout := EmptyString;
                      run_stderr := "nsenter: failed to execute : No such file" |}
|}.

(** A toy wire format: entities are pieces of text, a document is written
    as its entities between brackets.  Encoding refuses a nil sequence;
    decoding reports the first character it cannot accept, in the words
    of Go's [encoding/json], and leaves the receiver alone then. *)
Definition text_ToJSON (cfg : nftconfig_Config string)
    : option string * option error :=
  match Nftables cfg with
  | Some l => (Some ("[" +:+ String.concat "," l +:+ "]"), None)
  | None => (None, Some (errorString "json: unsupported value"))
  end.

Definition text_FromJSON (cfg : nftconfig_Config string) (data : string)
    : nftconfig_Config string * option error :=
  match data with
  | EmptyString => (cfg, Some (errorString "unexpected end of JSON input"))
  | String c rest =>
      if Ascii.eqb c "["%char then ({| Nftables := Some [data] |}, None)
      else (cfg, Some (errorString
                  ("invalid character '" +:+ String c EmptyString +:+
                   "' looking for beginning of value")))
  end.

Definition text_schema : Schema := {|
  Nftable := string;
  ToJSON := text_ToJSON;
  FromJSON := text_FromJSON
|}.

(** The package after [init] on a host. *)
Definition started (host : Host) (schema : Schema) : World :=
  (init initial_World).2.

Definition ns0 : string := "/var/run/netns/ns0".
Definition ns1 : string := "/var/run/netns/ns1".

(** The package after [init] and one [New] for each of two namespaces. *)
Definition two_documents (host : Host) (schema : Schema) : World :=
  (New ns1 (New ns0 (started host schema)).2).2.

(** The package after [init], with one document a caller made by hand as
    [&Config{NetNSPath: ns0}]: its entity sequence is nil. *)
Definition unset_document (host : Host) (schema : Schema) : World :=
  set_heap {[ 1%positive := fresh_Config ns0 None ]} (started host schema).

(** * Properties *)

Section Properties.
Context {host : Host} {schema : Schema}.

#[local] Arguments filepath_Base : simpl never.
#[local] Arguments String.eqb : simpl never.
#[local] Arguments String.append : simpl never.
#[local] Arguments run_result : simpl never.
#[local] Arguments strings_Join : simpl never.
#[local] Arguments fmt_v_strings : simpl never.
#[local] Arguments failed_to_execute : simpl never.

(** Unfolds the monad and the primitive steps, then computes. *)
Ltac go_unfold :=
  unfold mbind, mret, Go_bind, Go_ret, panic, get_NFTBinPath,
    get_NSEnterBinPath, set_NFTBinPath, set_NSEnterBinPath,
    Logger_Trace_Msgf, exec_LookPath, Cmd_Run, alloc, load, store,
    record, record_all, set_heap in *;
  cbn in *.

(** ** Traces and strings *)

Lemma run_calls_app (evs1 evs2 : list Event) :
  run_calls (evs1 ++ evs2) = run_calls evs1 ++ run_calls evs2.
Proof.
  induction evs1 as [|ev evs1 IH]; [reflexivity|].
  destruct ev; simpl; rewrite IH; reflexivity.
Qed.

Lemma lookups_app (evs1 evs2 : list Event) :
  lookups (evs1 ++ evs2) = lookups evs1 ++ lookups evs2.
Proof.
  induction evs1 as [|ev evs1 IH]; [reflexivity|].
  destruct ev; simpl; rewrite IH; reflexivity.
Qed.

Lemma append_assoc (s1 s2 s3 : string) :
  (s1 +:+ s2) +:+ s3 = s1 +:+ s2 +:+ s3.
Proof.
  induction s1 as [|c s1 IH]; [reflexivity|].
  change (String c ((s1 +:+ s2) +:+ s3) = String c (s1 +:+ s2 +:+ s3)).
  f_equal; exact IH.
Qed.

Lemma append_empty_r (s : string) : s +:+ EmptyString = s.
Proof.
  induction s as [|c s IH]; [reflexivity|].
  change (String c (s +:+ EmptyString) = String c s).
  f_equal; exact IH.
Qed.

Lemma Contains_here (pre s post : string) : Contains (pre +:+ s +:+ post) s.
Proof. exists pre, post; reflexivity. Qed.

Lemma Contains_later (pre t s : string) :
  Contains t s → Contains (pre +:+ t) s.
Proof.
  intros (p & q & ->). exists (pre +:+ p), q.
  symmetry; apply append_assoc.
Qed.

(** ** The executor, step by step *)

(** One call of [execCommand] from [w]: it changes nothing but the trace,
    to which it adds the log record, at most a lookup, and one [cmd.Run()];
    its result is read off what that [Run] leaves. *)
Lemma execCommand_spec (netNSPath : string) (input : option string)
    (args : list string) (w : World) :
  ∃ cmd evs,
    let r := run_result (events w ++ evs) cmd in
    execCommand netNSPath input args w =
      (Val (match run_err r with
            | Some err => (None, Some (failed_to_execute cmd input r err))
            | None => (Some (run_stdout r), None)
            end),
       record_all (evs ++ [EvRun cmd]) w) ∧
    run_calls evs = [] ∧
    Args cmd = NSEnterBinPath w :: ("--net=" +:+ netNSPath) :: "--" ::
               NFTBinPath w :: args ∧
    Stdin cmd = input ∧
    (String.eqb (filepath_Base (NSEnterBinPath w)) (NSEnterBinPath w) = false →
     Path cmd = NSEnterBinPath w ∧ Err cmd = None ∧ lookups evs = []).
Proof.
  unfold execCommand, exec_Command, record_all; go_unfold.
  destruct (String.eqb (filepath_Base (NSEnterBinPath w)) (NSEnterBinPath w))
    eqn:Hbare; go_unfold.
  1: match goal with
     | |- context [os_LookPath ?h ?n] =>
         destruct (os_LookPath h n) as [lp err] eqn:Hlp; cbn
     end.
  all: rewrite <- ?app_assoc; cbn.
  all: destruct input as [b|]; cbn.
  all: match goal with
       | |- context [run_result (?h ++ ?evs) ?c] =>
           exists c, evs; cbn; destruct (run_err (run_result (h ++ evs) c))
       end.
  all: cbn; rewrite <- ?app_assoc; cbn.
  all: repeat split; try reflexivity; discriminate.
Qed.

(** ** The constructor, step by step *)

(** One call of [New] from [w], by cases on the process-wide path and on
    the answer of the lookup. *)
Lemma New_spec (netNSPath : string) (w : World) :
  let l := fresh (dom (heap w)) in
  New netNSPath w =
    if String.eqb (NSEnterBinPath w) EmptyString then
      match os_LookPath (events w) "nsenter" with
      | (_, Some e) =>
          (Val (nilptr, Some e),
           {| NSEnterBinPath := NSEnterBinPath w;
              NFTBinPath := NFTBinPath w;
              heap := <[l := fresh_Config netNSPath None]> (heap w);
              events := events w ++ [EvLookPath "nsenter"] |})
      | (path, None) =>
          (Val (Ptr l, None),
           {| NSEnterBinPath := path;
              NFTBinPath := NFTBinPath w;
              heap := <[l := fresh_Config netNSPath (Some [])]> (heap w);
              events := events w ++ [EvLookPath "nsenter"] |})
      end
    else
      (Val (Ptr l, None),
       {| NSEnterBinPath := NSEnterBinPath w;
          NFTBinPath := NFTBinPath w;
          heap := <[l := fresh_Config netNSPath (Some [])]> (heap w);
          events := events w |}).
Proof.
  unfold New, set_heap, fresh_Config; go_unfold.
  destruct (String.eqb (NSEnterBinPath w) EmptyString); go_unfold.
  1: destruct (os_LookPath (events w) "nsenter") as [path [e|]]; cbn.
  all: repeat (rewrite lookup_insert_eq; cbn).
  all: unfold set_heap; cbn; rewrite ?insert_insert_eq; reflexivity.
Qed.

(** [c.FromJSON(data)] on an object that is there: the embedded value is
    replaced by what the decoder leaves, nothing else changes. *)
Lemma Config_FromJSON_spec (l : positive) (obj : Config) (data : string)
    (w : World) :
  heap w !! l = Some obj →
  Config_FromJSON (Ptr l) data w =
    (Val (FromJSON (Config_Config obj) data).2,
     set_heap (<[l := {| Config_Config := (FromJSON (Config_Config obj) data).1;
                         NetNSPath := NetNSPath obj |}]> (heap w)) w).
Proof.
  intros Hl. unfold Config_FromJSON; go_unfold. rewrite Hl; cbn.
  destruct (FromJSON (Config_Config obj) data) as [cfg err]; cbn.
  rewrite Hl; reflexivity.
Qed.

(** ** Read, step by step *)

(** [ReadConfig] from [w]: the executor runs first; on its success [New]
    runs from the world the executor left, and the decoder works on the
    object [New] returned. *)
Lemma ReadConfig_spec (netNSPath : string) (w : World) :
  ReadConfig netNSPath w =
    match execCommand netNSPath None [cmdJSON; cmdList; cmdRuleset] w with
    | (Val (_, Some e), w1) => (Val (nilptr, Some e), w1)
    | (Val (stdout, None), w1) =>
        match New netNSPath w1 with
        | (Val (_, Some e), w2) => (Val (nilptr, Some e), w2)
        | (Val (config, None), w2) =>
            match stdout with
            | Some data =>
                match Config_FromJSON config data w2 with
                | (Val (Some e), w3) =>
                    (Val (nilptr,
                          Some (fmt_Errorf
                                  ("failed to list ruleset: " +:+ Error e))),
                     w3)
                | (Val None, w3) => (Val (config, None), w3)
                | (Panic msg, w3) => (Panic msg, w3)
                end
            | None => (Panic "nil pointer dereference", w2)
            end
        | (Panic msg, w2) => (Panic msg, w2)
        end
    | (Panic msg, w1) => (Panic msg, w1)
    end.
Proof.
  unfold ReadConfig; go_unfold.
  destruct (execCommand _ _ _ w) as [[[stdout [e|]]|msg] w1]; cbn;
    try reflexivity.
  destruct (New _ w1) as [[[config [e|]]|msg] w2]; cbn; try reflexivity.
  destruct stdout as [data|]; cbn; try reflexivity.
  destruct (Config_FromJSON _ _ w2) as [[[e|]|msg] w3]; reflexivity.
Qed.

(** [ApplyConfig] from [w], on an object that is there. *)
Lemma ApplyConfig_spec (l : positive) (obj : Config) (w : World) :
  heap w !! l = Some obj →
  ApplyConfig (Ptr l) w =
    match ToJSON (Config_Config obj) with
    | (_, Some e) => (Val (Some e), w)
    | (data, None) =>
        match execCommand (NetNSPath obj) data [cmdJSON; cmdFile; cmdStdin] w
        with
        | (Val (_, err), w1) => (Val err, w1)
        | (Panic msg, w1) => (Panic msg, w1)
        end
    end.
Proof.
  intros Hl. unfold ApplyConfig, Config_ToJSON; go_unfold. rewrite Hl; cbn.
  destruct (ToJSON (Config_Config obj)) as [data [e|]]; cbn; [reflexivity|].
  rewrite Hl; cbn.
  destruct (execCommand _ _ _ w) as [[[out [e|]]|msg] w1]; reflexivity.
Qed.

(** [ApplyConfig] on the nil pointer panics at once. *)
Lemma ApplyConfig_nil (w : World) :
  ApplyConfig nilptr w = (Panic "nil pointer dereference", w).
Proof. reflexivity. Qed.

(** ** Whole calls *)

Lemma run_result_no_command (h : list Event) (cmd : Cmd) :
  Path cmd = EmptyString → Err cmd = None →
  run_result h cmd =
    {| run_err := Some (errors_New "exec: no command");
       run_stdout := EmptyString; run_stderr := EmptyString |}.
Proof. intros HP HE. unfold run_result. rewrite HE, HP. reflexivity. Qed.

(** Everything [ReadConfig] does from [w], next to what its executor call
    does.  When the executor succeeds the process-wide path cannot have been
    empty, so [New] neither looks anything up nor fails. *)
Lemma ReadConfig_outcome (netNSPath : string) (w : World) :
  ∃ cmd evs,
    let r := run_result (events w ++ evs) cmd in
    let w1 := record_all (evs ++ [EvRun cmd]) w in
    execCommand netNSPath None [cmdJSON; cmdList; cmdRuleset] w =
      (Val (match run_err r with
            | Some err => (None, Some (failed_to_execute cmd None r err))
            | None => (Some (run_stdout r), None)
            end), w1) ∧
    ReadConfig netNSPath w =
      match run_err r with
      | Some err => (Val (nilptr, Some (failed_to_execute cmd None r err)), w1)
      | None =>
          let l := fresh (dom (heap w)) in
          let d := FromJSON {| Nftables := Some [] |} (run_stdout r) in
          (Val (match d.2 with
                | Some e =>
                    (nilptr,
                     Some (fmt_Errorf ("failed to list ruleset: " +:+ Error e)))
                | None => (Ptr l, None)
                end),
           set_heap (<[l := {| Config_Config := d.1;
                               NetNSPath := netNSPath |}]> (heap w)) w1)
      end ∧
    run_calls evs = [] ∧
    Args cmd = NSEnterBinPath w :: ("--net=" +:+ netNSPath) :: "--" ::
               NFTBinPath w :: [cmdJSON; cmdList; cmdRuleset] ∧
    Stdin cmd = None ∧
    (String.eqb (filepath_Base (NSEnterBinPath w)) (NSEnterBinPath w) = false →
     Path cmd = NSEnterBinPath w ∧ Err cmd = None ∧ lookups evs = []).
Proof.
  destruct (execCommand_spec netNSPath None [cmdJSON; cmdList; cmdRuleset] w)
    as (cmd & evs & He & Hruns & Hargs & Hstdin & Hpath).
  exists cmd, evs. cbn zeta in *.
  split; [exact He|].
  split; [|exact (conj Hruns (conj Hargs (conj Hstdin Hpath)))].
  rewrite ReadConfig_spec, He.
  destruct (run_err (run_result (events w ++ evs) cmd)) as [err|] eqn:Hr;
    [reflexivity|].
  destruct (String.eqb (NSEnterBinPath w) EmptyString) eqn:Hempty.
  { apply String.eqb_eq in Hempty.
    destruct Hpath as (HP & HE & _); [rewrite Hempty; reflexivity|].
    rewrite (run_result_no_command _ cmd) in Hr by congruence.
    discriminate. }
  rewrite New_spec. cbn. rewrite Hempty.
  erewrite Config_FromJSON_spec by apply lookup_insert_eq.
  cbn. unfold set_heap; cbn. rewrite insert_insert_eq.
  destruct (FromJSON _ _) as [cfg [e|]]; reflexivity.
Qed.

(** Everything [ApplyConfig] does from [w] on an object that is there. *)
Lemma ApplyConfig_outcome (l : positive) (obj : Config) (w : World) :
  heap w !! l = Some obj →
  match ToJSON (Config_Config obj) with
  | (_, Some e) => ApplyConfig (Ptr l) w = (Val (Some e), w)
  | (data, None) =>
      ∃ cmd evs,
        let r := run_result (events w ++ evs) cmd in
        ApplyConfig (Ptr l) w =
          (Val (match run_err r with
                | Some err => Some (failed_to_execute cmd data r err)
                | None => None
                end),
           record_all (evs ++ [EvRun cmd]) w) ∧
        run_calls evs = [] ∧
        Args cmd = NSEnterBinPath w :: ("--net=" +:+ NetNSPath obj) :: "--" ::
                   NFTBinPath w :: [cmdJSON; cmdFile; cmdStdin] ∧
        Stdin cmd = data ∧
        (String.eqb (filepath_Base (NSEnterBinPath w)) (NSEnterBinPath w)
           = false →
         Path cmd = NSEnterBinPath w ∧ Err cmd = None ∧ lookups evs = [])
  end.
Proof.
  intros Hl. rewrite (ApplyConfig_spec l obj w Hl).
  destruct (ToJSON (Config_Config obj)) as [data [e|]]; [reflexivity|].
  destruct (execCommand_spec (NetNSPath obj) data [cmdJSON; cmdFile; cmdStdin] w)
    as (cmd & evs & He & Hruns & Hargs & Hstdin & Hpath).
  exists cmd, evs. cbn zeta in *.
  split; [|exact (conj Hruns (conj Hargs (conj Hstdin Hpath)))].
  rewrite He.
  destruct (run_err (run_result (events w ++ evs) cmd)); reflexivity.
Qed.

(** So it does on an address outside the heap. *)
Lemma ApplyConfig_dangling (l : positive) (w : World) :
  heap w !! l = None →
  ApplyConfig (Ptr l) w = (Panic "nil pointer dereference", w).
Proof.
  intros Hl. unfold ApplyConfig, Config_ToJSON; go_unfold.
  rewrite Hl; reflexivity.
Qed.

(** ** The claims *)

(** C1. Every call of the executor with namespace reference [N] and tool
    arguments [A] hands exactly one command to [Run].  Its argument vector
    is the namespace-entry tool path, then ["--net=" ++ N], then the
    separator ["--"], then the ruleset-tool path, then [A], in this order:
    the namespace option stands before the separator and the separator
    immediately before the ruleset-tool path.  The program to run is the
    namespace-entry tool path itself, unless that is a bare name, which
    [exec.Command] resolves. *)
Theorem execCommand_argument_vector (N : string) (input : option string)
    (A : list string) (w : World) :
  ∃ cmd,
    run_calls (events (execCommand N input A w).2) =
      run_calls (events w) ++ [cmd] ∧
    Args cmd = NSEnterBinPath w :: (["--net=" +:+ N; "--"; NFTBinPath w] ++ A) ∧
    Args cmd !! 1 = Some ("--net=" +:+ N) ∧
    Args cmd !! 2 = Some "--" ∧
    Args cmd !! 3 = Some (NFTBinPath w) ∧
    drop 4 (Args cmd) = A ∧
    (Path cmd = NSEnterBinPath w ∨
     filepath_Base (NSEnterBinPath w) = NSEnterBinPath w).
Proof.
  destruct (execCommand_spec N input A w)
    as (cmd & evs & He & Hruns & Hargs & _ & Hpath).
  exists cmd. cbn zeta in He. rewrite He; cbn.
  rewrite !run_calls_app, Hruns, Hargs; cbn.
  repeat split.
  destruct (String.eqb (filepath_Base (NSEnterBinPath w)) (NSEnterBinPath w))
    eqn:Hbare.
  - right. apply String.eqb_eq, Hbare.
  - left. apply Hpath; reflexivity.
Qed.

(** C2. [ReadConfig] on any namespace reference makes one executor call,
    with the arguments [-j], [list], [ruleset] and a nil input: the command it
    runs has no standard input attached, and the trace it leaves is the
    trace of [execCommand] on these arguments.  [ApplyConfig] on a document
    that encodes to [data] makes one executor call with the arguments [-j],
    [-f], [-] and [data] as input: [data] is the standard input of the
    command it runs. *)
Theorem ReadConfig_ApplyConfig_invocations :
  (∀ (netNSPath : string) (w : World),
     events (ReadConfig netNSPath w).2 =
       events (execCommand netNSPath None ["-j"; "list"; "ruleset"] w).2 ∧
     ∃ cmd,
       run_calls (events (ReadConfig netNSPath w).2) =
         run_calls (events w) ++ [cmd] ∧
       Args cmd = NSEnterBinPath w :: ("--net=" +:+ netNSPath) :: "--" ::
                  NFTBinPath w :: ["-j"; "list"; "ruleset"] ∧
       Stdin cmd = None) ∧
  (∀ (l : positive) (obj : Config) (data : option string) (w : World),
     heap w !! l = Some obj →
     ToJSON (Config_Config obj) = (data, None) →
     events (ApplyConfig (Ptr l) w).2 =
       events (execCommand (NetNSPath obj) data ["-j"; "-f"; "-"] w).2 ∧
     ∃ cmd,
       run_calls (events (ApplyConfig (Ptr l) w).2) =
         run_calls (events w) ++ [cmd] ∧
       Args cmd = NSEnterBinPath w :: ("--net=" +:+ NetNSPath obj) :: "--" ::
                  NFTBinPath w :: ["-j"; "-f"; "-"] ∧
       Stdin cmd = data).
Proof.
  split.
  - intros netNSPath w.
    destruct (ReadConfig_outcome netNSPath w)
      as (cmd & evs & He & HR & Hruns & Hargs & Hstdin & _).
    cbn zeta in *. change ["-j"; "list"; "ruleset"]
      with [cmdJSON; cmdList; cmdRuleset].
    rewrite He, HR.
    destruct (run_err (run_result (events w ++ evs) cmd)); cbn.
    all: split; [reflexivity|].
    all: exists cmd; rewrite !run_calls_app, Hruns; auto.
  - intros l obj data w Hl Henc.
    pose proof (ApplyConfig_outcome l obj w Hl) as HA.
    rewrite Henc in HA.
    destruct HA as (cmd & evs & HA & Hruns & Hargs & Hstdin & _).
    destruct (execCommand_spec (NetNSPath obj) data ["-j"; "-f"; "-"] w)
      as (cmd' & evs' & He & _).
    cbn zeta in *.
    assert (Hsame : (ApplyConfig (Ptr l) w).2 =
                    (execCommand (NetNSPath obj) data ["-j"; "-f"; "-"] w).2).
    { rewrite (ApplyConfig_spec l obj w Hl), Henc.
      change [cmdJSON; cmdFile; cmdStdin] with ["-j"; "-f"; "-"].
      destruct (execCommand _ _ _ w) as [[[out err]|msg] w1]; reflexivity. }
    split; [rewrite Hsame; reflexivity|].
    exists cmd. rewrite HA; cbn.
    rewrite !run_calls_app, Hruns. auto.
Qed.

(** C3. What a call of the executor returns is decided by the [Run] of its
    command.  When [Run] reports no error the call returns the captured
    standard output and no error.  When [Run] reports [err] (the process
    could not be started, or did not exit with status zero) the call returns
    no buffer and an error that unwraps to [err] and whose text is
    [failed to execute], the resolved path, the argument vector joined by
    spaces, the text of [err], and the input, the captured standard output
    and the captured standard error between quotes; so each of them, the
    standard error included, is part of the text as it is. *)
Theorem execCommand_result (netNSPath : string) (input : option string)
    (args : list string) (w : World) :
  ∃ cmd h,
    events (execCommand netNSPath input args w).2 = h ++ [EvRun cmd] ∧
    Args cmd = NSEnterBinPath w :: ("--net=" +:+ netNSPath) :: "--" ::
               NFTBinPath w :: args ∧
    let r := run_result h cmd in
    match run_err r with
    | None =>
        (execCommand netNSPath input args w).1 = Val (Some (run_stdout r), None)
    | Some err =>
        ∃ E,
          (execCommand netNSPath input args w).1 = Val (None, Some E) ∧
          Unwrap E = Some err ∧
          Error E =
            "failed to execute " +:+ Path cmd +:+ " " +:+
            strings_Join (Args cmd) " " +:+ ": " +:+ Error err +:+
            " stdin:'" +:+ string_of_bytes input +:+
            "' stdout:'" +:+ run_stdout r +:+
            "' stderr:'" +:+ run_stderr r +:+ "'" ∧
          Contains (Error E) (Path cmd) ∧
          Contains (Error E) (strings_Join (Args cmd) " ") ∧
          Contains (Error E) (Error err) ∧
          Contains (Error E) (string_of_bytes input) ∧
          Contains (Error E) (run_stdout r) ∧
          Contains (Error E) (run_stderr r)
    end.
Proof.
  destruct (execCommand_spec netNSPath input args w)
    as (cmd & evs & He & _ & Hargs & _).
  exists cmd, (events w ++ evs). cbn zeta in *.
  rewrite He; cbn. rewrite app_assoc.
  split; [reflexivity|]. split; [exact Hargs|].
  destruct (run_err (run_result (events w ++ evs) cmd)) as [err|];
    [|reflexivity].
  eexists; split; [reflexivity|].
  split; [reflexivity|]. split; [reflexivity|].
  unfold failed_to_execute, fmt_Errorf_w; cbn [Error].
  repeat split.
  - apply Contains_here.
  - do 2 apply Contains_later. apply Contains_here.
  - do 4 apply Contains_later. apply Contains_here.
  - do 6 apply Contains_later. apply Contains_here.
  - do 8 apply Contains_later. apply Contains_here.
  - do 10 apply Contains_later. apply Contains_here.
Qed.

(** C4. Whenever [New] returns a document and no error, the document is a
    newly allocated object bound to the given namespace reference, and its
    entity sequence is the empty, non-nil slice. *)
Theorem New_document_initialized (netNSPath : string) (w w' : World)
    (p : ptr) :
  New netNSPath w = (Val (p, None), w') →
  ∃ l obj,
    p = Ptr l ∧
    heap w !! l = None ∧
    heap w' !! l = Some obj ∧
    NetNSPath obj = netNSPath ∧
    Nftables (Config_Config obj) = Some [].
Proof.
  rewrite New_spec. cbn zeta.
  assert (Hfresh : heap w !! fresh (dom (heap w)) = None)
    by apply not_elem_of_dom, is_fresh.
  destruct (String.eqb (NSEnterBinPath w) EmptyString).
  1: destruct (os_LookPath (events w) "nsenter") as [path [e|]].
  all: intros [= <- <-]; cbn.
  all: eexists _, _; split; [reflexivity|]; split; [exact Hfresh|].
  all: split; [apply lookup_insert_eq|]; split; reflexivity.
Qed.

(** C5. [New] calls [exec.LookPath] for the namespace-entry tool exactly
    when the process-wide path is empty, and then once.  When that lookup
    fails, [New] returns the lookup's error and no document and leaves the
    path empty; when it succeeds, the process-wide path becomes the path
    found.  [New] never calls [Run].  No operation ([New], [ReadConfig],
    [ApplyConfig], [execCommand]) changes the ruleset-tool path. *)
Theorem New_lazy_lookup :
  (∀ (netNSPath : string) (w : World),
     let r := (New netNSPath w).1 in
     let w' := (New netNSPath w).2 in
     run_calls (events w') = run_calls (events w) ∧
     if String.eqb (NSEnterBinPath w) EmptyString then
       events w' = events w ++ [EvLookPath "nsenter"] ∧
       match os_LookPath (events w) "nsenter" with
       | (_, Some e) =>
           r = Val (nilptr, Some e) ∧ NSEnterBinPath w' = EmptyString
       | (path, None) =>
           (∃ l, r = Val (Ptr l, None)) ∧ NSEnterBinPath w' = path
       end
     else
       events w' = events w ∧
       (∃ l, r = Val (Ptr l, None)) ∧
       NSEnterBinPath w' = NSEnterBinPath w) ∧
  (∀ (netNSPath : string) (w : World),
     NFTBinPath (New netNSPath w).2 = NFTBinPath w) ∧
  (∀ (netNSPath : string) (input : option string) (args : list string)
     (w : World),
     NFTBinPath (execCommand netNSPath input args w).2 = NFTBinPath w) ∧
  (∀ (netNSPath : string) (w : World),
     NFTBinPath (ReadConfig netNSPath w).2 = NFTBinPath w) ∧
  (∀ (c : ptr) (w : World),
     NFTBinPath (ApplyConfig c w).2 = NFTBinPath w).
Proof.
  split; [|split; [|split; [|split]]].
  - intros netNSPath w. cbn zeta. rewrite New_spec; cbn zeta.
    destruct (String.eqb (NSEnterBinPath w) EmptyString) eqn:Hempty.
    + apply String.eqb_eq in Hempty.
      destruct (os_LookPath (events w) "nsenter") as [path [e|]]; cbn.
      all: rewrite run_calls_app; cbn; rewrite app_nil_r; eauto.
    + cbn; eauto.
  - intros netNSPath w. rewrite New_spec; cbn zeta.
    destruct (String.eqb (NSEnterBinPath w) EmptyString); [|reflexivity].
    destruct (os_LookPath (events w) "nsenter") as [path [e|]]; reflexivity.
  - intros netNSPath input args w.
    destruct (execCommand_spec netNSPath input args w)
      as (cmd & evs & He & _).
    cbn zeta in He; rewrite He; reflexivity.
  - intros netNSPath w.
    destruct (ReadConfig_outcome netNSPath w) as (cmd & evs & _ & HR & _).
    cbn zeta in HR; rewrite HR.
    destruct (run_err _); reflexivity.
  - intros c w. destruct c as [|l]; [rewrite ApplyConfig_nil; reflexivity|].
    destruct (heap w !! l) as [obj|] eqn:Hl.
    + pose proof (ApplyConfig_outcome l obj w Hl) as HA.
      destruct (ToJSON (Config_Config obj)) as [data [e|]].
      * rewrite HA; reflexivity.
      * destruct HA as (cmd & evs & HA & _).
        cbn zeta in HA; rewrite HA; reflexivity.
    + rewrite (ApplyConfig_dangling l w Hl); reflexivity.
Qed.

(** C6. When the encoding of the document fails with [e], [ApplyConfig]
    returns [e] and leaves the world as it found it: nothing is logged,
    nothing is looked up, the executor is not called and no command is
    run. *)
Theorem ApplyConfig_encode_failure (l : positive) (obj : Config)
    (data : option string) (e : error) (w : World) :
  heap w !! l = Some obj →
  ToJSON (Config_Config obj) = (data, Some e) →
  ApplyConfig (Ptr l) w = (Val (Some e), w) ∧
  events (ApplyConfig (Ptr l) w).2 = events w ∧
  run_calls (events (ApplyConfig (Ptr l) w).2) = run_calls (events w).
Proof.
  intros Hl Henc.
  pose proof (ApplyConfig_outcome l obj w Hl) as HA.
  rewrite Henc in HA. rewrite HA. repeat split.
Qed.

(** C7, as the code has it.  When the executor call of [ReadConfig]
    succeeds with standard output [out] and decoding [out] into the new
    document fails with [perr], [ReadConfig] returns no document and a plain
    error whose text is [failed to list ruleset: ] followed by the text of
    [perr]: it names the operation and embeds the parse error's text (with
    [%v], so nothing can be unwrapped).  [ReadConfig] puts nothing of [out]
    into the text itself: [out] shows there only as far as the text of
    [perr] quotes it. *)
Theorem ReadConfig_decode_failure (netNSPath : string) (w w1 : World)
    (out : string) (cfg : nftconfig_Config Nftable) (perr : error) :
  execCommand netNSPath None ["-j"; "list"; "ruleset"] w
    = (Val (Some out, None), w1) →
  FromJSON {| Nftables := Some [] |} out = (cfg, Some perr) →
  ∃ E,
    (ReadConfig netNSPath w).1 = Val (nilptr, Some E) ∧
    E = fmt_Errorf ("failed to list ruleset: " +:+ Error perr) ∧
    Error E = "failed to list ruleset: " +:+ Error perr ∧
    Contains (Error E) "failed to list ruleset" ∧
    Contains (Error E) (Error perr) ∧
    Unwrap E = None.
Proof.
  intros Hexec Hdec.
  destruct (ReadConfig_outcome netNSPath w) as (cmd & evs & He & HR & _).
  cbn zeta in *.
  change [cmdJSON; cmdList; cmdRuleset] with ["-j"; "list"; "ruleset"] in He.
  rewrite He in Hexec. rewrite HR.
  destruct (run_err (run_result (events w ++ evs) cmd)); [discriminate|].
  injection Hexec as Hout _. rewrite Hout, Hdec; cbn.
  eexists; repeat split.
  - exists EmptyString, (": " +:+ Error perr). reflexivity.
  - exists "failed to list ruleset: ", EmptyString.
    rewrite append_empty_r; reflexivity.
Qed.

(** C8. [ApplyConfig] leaves the heap of documents as it found it, whatever
    it returns.  [ReadConfig] leaves every document that existed before
    the call as it was, whatever it returns and at whatever stage it fails;
    a document it returns is one that did not exist before the call. *)
Theorem documents_untouched :
  (∀ (c : ptr) (w : World), heap (ApplyConfig c w).2 = heap w) ∧
  (∀ (netNSPath : string) (w : World),
     heap w ⊆ heap (ReadConfig netNSPath w).2 ∧
     match (ReadConfig netNSPath w).1 with
     | Val (Ptr l, _) => heap w !! l = None
     | _ => True
     end).
Proof.
  split.
  - intros c w. destruct c as [|l]; [rewrite ApplyConfig_nil; reflexivity|].
    destruct (heap w !! l) as [obj|] eqn:Hl.
    + pose proof (ApplyConfig_outcome l obj w Hl) as HA.
      destruct (ToJSON (Config_Config obj)) as [data [e|]].
      * rewrite HA; reflexivity.
      * destruct HA as (cmd & evs & HA & _).
        cbn zeta in HA; rewrite HA; reflexivity.
    + rewrite (ApplyConfig_dangling l w Hl); reflexivity.
  - intros netNSPath w.
    assert (Hfresh : heap w !! fresh (dom (heap w)) = None)
      by apply not_elem_of_dom, is_fresh.
    destruct (ReadConfig_outcome netNSPath w) as (cmd & evs & _ & HR & _).
    cbn zeta in HR; rewrite HR.
    destruct (run_err _); cbn; [done|].
    split; [by apply insert_subseteq|].
    destruct (FromJSON _ _).2; [exact I|exact Hfresh].
Qed.

(** C9. The encoding of a document, and with it the input [ApplyConfig]
    hands to the command it runs, is what [ToJSON] makes of the embedded
    [nftconfig.Config] alone, so the namespace reference is no part of it:
    two documents that differ at most in their namespace reference encode
    to the same bytes and the same error, and [ApplyConfig] attaches the
    same standard input for both. *)
Theorem NetNSPath_not_serialized (l1 l2 : positive) (obj1 obj2 : Config)
    (w : World) :
  heap w !! l1 = Some obj1 →
  heap w !! l2 = Some obj2 →
  Config_Config obj1 = Config_Config obj2 →
  (Config_ToJSON (Ptr l1) w).1 = Val (ToJSON (Config_Config obj1)) ∧
  (Config_ToJSON (Ptr l1) w).1 = (Config_ToJSON (Ptr l2) w).1 ∧
  Stdin <$> run_calls (events (ApplyConfig (Ptr l1) w).2) =
    Stdin <$> run_calls (events (ApplyConfig (Ptr l2) w).2).
Proof.
  intros H1 H2 Heq. split; [|split].
  - unfold Config_ToJSON; go_unfold. rewrite H1; reflexivity.
  - unfold Config_ToJSON; go_unfold. rewrite H1, H2; cbn.
    rewrite Heq; reflexivity.
  - pose proof (ApplyConfig_outcome l1 obj1 w H1) as HA1.
    pose proof (ApplyConfig_outcome l2 obj2 w H2) as HA2.
    rewrite Heq in HA1.
    destruct (ToJSON (Config_Config obj2)) as [data [e|]].
    + rewrite HA1, HA2; reflexivity.
    + destruct HA1 as (cmd1 & evs1 & HA1 & Hruns1 & _ & Hstdin1 & _).
      destruct HA2 as (cmd2 & evs2 & HA2 & Hruns2 & _ & Hstdin2 & _).
      cbn zeta in *. rewrite HA1, HA2; cbn.
      rewrite !run_calls_app, Hruns1, Hruns2; cbn.
      rewrite !fmap_app; cbn. congruence.
Qed.

(** C10. [ReadConfig] runs the executor before it calls [New]: when the
    executor fails, [ReadConfig] returns its error from the world the
    executor left, and [New] has not run.  So with an empty process-wide
    namespace-entry path [ReadConfig] looks nothing up and repairs nothing:
    the command handed to [Run] has an empty path, [Run] refuses it, and the
    error returned is the executor's, around [exec: no command]; the path is
    still empty afterwards and no document was made. *)
Theorem ReadConfig_unresolved_path :
  (∀ (netNSPath : string) (w w1 : World) (stdout : option string) (e : error),
     execCommand netNSPath None ["-j"; "list"; "ruleset"] w
       = (Val (stdout, Some e), w1) →
     ReadConfig netNSPath w = (Val (nilptr, Some e), w1)) ∧
  (∀ (netNSPath : string) (w : World),
     NSEnterBinPath w = EmptyString →
     ∃ cmd r w',
       ReadConfig netNSPath w =
         (Val (nilptr,
               Some (failed_to_execute cmd None r
                       (errors_New "exec: no command"))),
          w') ∧
       (execCommand netNSPath None ["-j"; "list"; "ruleset"] w).2 = w' ∧
       Path cmd = EmptyString ∧
       run_calls (events w') = run_calls (events w) ++ [cmd] ∧
       lookups (events w') = lookups (events w) ∧
       NSEnterBinPath w' = EmptyString ∧
       heap w' = heap w).
Proof.
  split.
  { intros netNSPath w w1 stdout e Hexec.
    rewrite ReadConfig_spec.
    change [cmdJSON; cmdList; cmdRuleset] with ["-j"; "list"; "ruleset"].
    rewrite Hexec; reflexivity. }
  intros netNSPath w Hempty.
  destruct (ReadConfig_outcome netNSPath w)
    as (cmd & evs & He & HR & Hruns & _ & _ & Hpath).
  cbn zeta in *.
  change [cmdJSON; cmdList; cmdRuleset] with ["-j"; "list"; "ruleset"] in He.
  destruct Hpath as (HP & HE & Hlook); [rewrite Hempty; reflexivity|].
  rewrite Hempty in HP.
  rewrite (run_result_no_command _ cmd HP HE) in HR, He.
  cbn in HR, He. rewrite HR, He.
  eexists cmd, _, _. split; [reflexivity|]. cbn.
  repeat split; try assumption.
  - rewrite !run_calls_app, Hruns; reflexivity.
  - rewrite !lookups_app, Hlook; cbn. rewrite app_nil_r; reflexivity.
Qed.

(** ** Further properties of the package *)

(** X1. [init] makes two lookups, of [nsenter] and then of [nft], and stores
    the two paths it is given whatever the errors that come with them: the
    errors are dropped, so a lookup that fails with an empty path leaves the
    variable empty, and the names of the [var] block never outlive [init].
    Nothing is run and no document is touched. *)
Theorem init_stores_lookup_results (w : World) :
  let nsenter := os_LookPath (events w) "nsenter" in
  let nft := os_LookPath (events w ++ [EvLookPath "nsenter"]) "nft" in
  init w =
    (Val tt,
     {| NSEnterBinPath := nsenter.1;
        NFTBinPath := nft.1;
        heap := heap w;
        events := events w ++ [EvLookPath "nsenter"; EvLookPath "nft"] |}) ∧
  run_calls (events (init w).2) = run_calls (events w).
Proof.
  cbn zeta. unfold init; go_unfold.
  destruct (os_LookPath (events w) "nsenter") as [p1 e1]; cbn.
  destruct (os_LookPath (events w ++ [EvLookPath "nsenter"]) "nft")
    as [p2 e2]; cbn.
  rewrite <- !app_assoc; cbn. split; [reflexivity|].
  rewrite run_calls_app; cbn. apply app_nil_r.
Qed.

(** X2. The first [New] after [init] looks the namespace-entry tool up a
    second time exactly when the lookup of [init] came back with an empty
    path. *)
Theorem New_after_init (netNSPath : string) :
  lookups (events (New netNSPath (init initial_World).2).2) =
    if String.eqb (os_LookPath [] "nsenter").1 EmptyString
    then ["nsenter"; "nft"; "nsenter"]
    else ["nsenter"; "nft"].
Proof.
  rewrite New_spec; cbn zeta.
  unfold init; go_unfold.
  destruct (os_LookPath [] "nsenter") as [p1 e1]; cbn.
  destruct (os_LookPath [EvLookPath "nsenter"] "nft") as [p2 e2]; cbn.
  destruct (String.eqb p1 EmptyString); [|reflexivity].
  destruct (os_LookPath _ "nsenter") as [p3 [e3|]]; reflexivity.
Qed.

(** X3. [execCommand] writes its log record before anything else: the
    record names the namespace-entry path and the arguments between
    brackets.  Then [exec.Command] looks the path up if it is a bare name,
    and last comes the one [Run].  Only the namespace-entry path is ever
    looked up here, never the ruleset tool. *)
Theorem execCommand_logs_before_running (netNSPath : string)
    (input : option string) (args : list string) (w : World) :
  ∃ cmd,
    events (execCommand netNSPath input args w).2 =
      events w ++
      EvTrace ("Running nsenter command: " +:+ NSEnterBinPath w +:+ " [" +:+
               String.concat " "
                 (("--net=" +:+ netNSPath) :: "--" :: NFTBinPath w :: args)
               +:+ "]") ::
      (if String.eqb (filepath_Base (NSEnterBinPath w)) (NSEnterBinPath w)
       then [EvLookPath (NSEnterBinPath w)] else []) ++
      [EvRun cmd].
Proof.
  unfold execCommand, exec_Command; go_unfold.
  destruct (String.eqb (filepath_Base (NSEnterBinPath w)) (NSEnterBinPath w));
    go_unfold.
  1: match goal with
     | |- context [os_LookPath ?h ?n] =>
         destruct (os_LookPath h n) as [lp err]; cbn
     end.
  all: match goal with
       | |- context [run_result ?h ?c] =>
           exists c; destruct (run_err (run_result h c))
       end.
  all: cbn; rewrite <- ?app_assoc; reflexivity.
Qed.

(** X4. The standard input of the command is the [input] of the call as it
    is, for every [input]: a nil one attaches no stream, and an empty but
    non-nil one attaches an empty stream rather than none. *)
Theorem execCommand_stdin_attachment :
  (∀ (netNSPath : string) (input : option string) (args : list string)
     (w : World),
     ∃ cmd,
       run_calls (events (execCommand netNSPath input args w).2) =
         run_calls (events w) ++ [cmd] ∧
       Stdin cmd = input) ∧
  (∀ (netNSPath : string) (args : list string) (w : World),
     Stdin <$> run_calls (events (execCommand netNSPath None args w).2) ≠
     Stdin <$> run_calls
                 (events (execCommand netNSPath (Some EmptyString) args w).2)).
Proof.
  assert (Hgen : ∀ (netNSPath : string) (input : option string)
                   (args : list string) (w : World),
            ∃ cmd,
              run_calls (events (execCommand netNSPath input args w).2) =
                run_calls (events w) ++ [cmd] ∧
              Stdin cmd = input).
  { intros netNSPath input args w.
    destruct (execCommand_spec netNSPath input args w)
      as (cmd & evs & He & Hruns & _ & Hstdin & _).
    exists cmd. cbn zeta in He. rewrite He; cbn.
    rewrite !run_calls_app, Hruns; cbn. auto. }
  split; [exact Hgen|].
  intros netNSPath args w.
  destruct (Hgen netNSPath None args w) as (c1 & -> & H1).
  destruct (Hgen netNSPath (Some EmptyString) args w) as (c2 & -> & H2).
  rewrite !fmap_app; cbn. rewrite H1, H2.
  intros Heq. apply app_inj_tail in Heq as [_ [=]].
Qed.

(** X5. When [Run] fails on a namespace-entry path with a directory part,
    the text of the error names that path twice: once as [cmd.Path] and once
    as the head of [cmd.Args], before the namespace option, the separator
    and the ruleset tool. *)
Theorem execCommand_error_names_tool_twice (netNSPath : string)
    (input : option string) (args : list string) (w : World) (E : error) :
  String.eqb (filepath_Base (NSEnterBinPath w)) (NSEnterBinPath w) = false →
  (execCommand netNSPath input args w).1 = Val (None, Some E) →
  ∃ rest,
    Error E =
      "failed to execute " +:+ NSEnterBinPath w +:+ " " +:+
      NSEnterBinPath w +:+ " --net=" +:+ netNSPath +:+ " -- " +:+
      NFTBinPath w +:+ rest.
Proof.
  intros Hbare.
  destruct (execCommand_spec netNSPath input args w)
    as (cmd & evs & He & _ & Hargs & _ & Hpath).
  destruct (Hpath Hbare) as (HP & _). cbn zeta in He. rewrite He; cbn.
  destruct (run_err _) as [err|]; [|discriminate].
  intros [= <-]. unfold failed_to_execute, fmt_Errorf_w; cbn [Error].
  rewrite HP, Hargs. unfold strings_Join.
  destruct args as [|a args'].
  - eexists. cbn [String.concat].
    rewrite !append_assoc. change (" --net=" +:+ ?x) with (" " +:+ "--net=" +:+ x).
    reflexivity.
  - eexists. cbn [String.concat].
    rewrite !append_assoc. reflexivity.
Qed.

(** X6. Two calls of [New] that succeed return different objects, each
    bound to its own namespace with an empty entity sequence, and the
    second call leaves the first document as it was; no call of [New],
    failed or not, changes a document that was there before. *)
Theorem New_documents_distinct :
  (∀ (ns ns' : string) (w w1 w2 : World) (l1 l2 : positive),
     New ns w = (Val (Ptr l1, None), w1) →
     New ns' w1 = (Val (Ptr l2, None), w2) →
     l1 ≠ l2 ∧
     heap w2 !! l1 = Some (fresh_Config ns (Some [])) ∧
     heap w2 !! l2 = Some (fresh_Config ns' (Some []))) ∧
  (∀ (ns : string) (w : World), heap w ⊆ heap (New ns w).2).
Proof.
  assert (Hsub : ∀ (ns : string) (w : World), heap w ⊆ heap (New ns w).2).
  { intros ns w. rewrite New_spec; cbn zeta.
    assert (Hfresh : heap w !! fresh (dom (heap w)) = None)
      by apply not_elem_of_dom, is_fresh.
    destruct (String.eqb (NSEnterBinPath w) EmptyString).
    1: destruct (os_LookPath (events w) "nsenter") as [path [e|]].
    all: cbn; by apply insert_subseteq. }
  split; [|exact Hsub].
  intros ns ns' w w1 w2 l1 l2 H1 H2.
  assert (Hl1 : heap w1 !! l1 = Some (fresh_Config ns (Some []))).
  { revert H1. rewrite New_spec; cbn zeta.
    destruct (String.eqb (NSEnterBinPath w) EmptyString).
    1: destruct (os_LookPath (events w) "nsenter") as [path [e|]].
    all: intros [= <- <-]; cbn; apply lookup_insert_eq. }
  assert (Hl2 : l2 = fresh (dom (heap w1)) ∧
                heap w2 !! l2 = Some (fresh_Config ns' (Some []))).
  { revert H2. rewrite New_spec; cbn zeta.
    destruct (String.eqb (NSEnterBinPath w1) EmptyString).
    1: destruct (os_LookPath (events w1) "nsenter") as [path [e|]].
    all: intros [= <- <-]; cbn.
    all: split; try reflexivity; apply lookup_insert_eq. }
  destruct Hl2 as [-> Hl2].
  assert (Hne : l1 ≠ fresh (dom (heap w1))).
  { intros ->. pose proof (is_fresh (dom (heap w1))) as Hfresh.
    apply not_elem_of_dom in Hfresh. congruence. }
  repeat split; [exact Hne| |exact Hl2].
  pose proof (Hsub ns' w1) as Hsub1. rewrite H2 in Hsub1; cbn in Hsub1.
  eapply lookup_weaken; eassumption.
Qed.

(** X7. A failed lookup is not remembered.  When [New] fails because the
    namespace-entry tool is not found, the process-wide path stays empty,
    and the next [New] looks the tool up again: it fails again with the new
    lookup's error, or succeeds and stores the path found. *)
Theorem New_failed_lookup_is_retried (ns ns' : string) (w : World)
    (e : error) :
  NSEnterBinPath w = EmptyString →
  (os_LookPath (events w) "nsenter").2 = Some e →
  let w1 := (New ns w).2 in
  (New ns w).1 = Val (nilptr, Some e) ∧
  NSEnterBinPath w1 = EmptyString ∧
  events (New ns' w1).2 =
    events w ++ [EvLookPath "nsenter"; EvLookPath "nsenter"] ∧
  match os_LookPath (events w ++ [EvLookPath "nsenter"]) "nsenter" with
  | (_, Some e') => (New ns' w1).1 = Val (nilptr, Some e')
  | (path, None) =>
      (∃ l, (New ns' w1).1 = Val (Ptr l, None)) ∧
      NSEnterBinPath (New ns' w1).2 = path
  end.
Proof.
  intros Hempty Hfail. cbn zeta.
  rewrite (New_spec ns w); cbn zeta. rewrite Hempty, String.eqb_refl.
  destruct (os_LookPath (events w) "nsenter") as [p [e0|]];
    cbn in Hfail; [|discriminate].
  injection Hfail as ->. cbn.
  rewrite New_spec; cbn zeta. cbn [NSEnterBinPath events heap].
  rewrite ?Hempty, String.eqb_refl.
  destruct (os_LookPath (events w ++ [EvLookPath "nsenter"]) "nsenter")
    as [p' [e'|]]; cbn.
  all: rewrite <- !app_assoc; cbn; eauto 10.
Qed.

(** X8. When the executor call of [ReadConfig] succeeds with standard
    output [out] and decoding [out] into the empty document succeeds
    leaving [cfg], [ReadConfig] returns a document that did not exist
    before, bound to the namespace asked for and holding [cfg]; beyond that
    it leaves the world as the executor left it. *)
Theorem ReadConfig_success (netNSPath : string) (w w1 : World)
    (out : string) (cfg : nftconfig_Config Nftable) :
  execCommand netNSPath None [cmdJSON; cmdList; cmdRuleset] w
    = (Val (Some out, None), w1) →
  FromJSON {| Nftables := Some [] |} out = (cfg, None) →
  ∃ l,
    heap w !! l = None ∧
    ReadConfig netNSPath w =
      (Val (Ptr l, None),
       set_heap (<[l := {| Config_Config := cfg;
                           NetNSPath := netNSPath |}]> (heap w)) w1).
Proof.
  intros Hexec Hdec.
  destruct (ReadConfig_outcome netNSPath w) as (cmd & evs & He & HR & _).
  cbn zeta in *. rewrite He in Hexec. rewrite HR.
  destruct (run_err (run_result (events w ++ evs) cmd)); [discriminate|].
  injection Hexec as Hout Hw. rewrite Hout, Hdec, Hw; cbn.
  exists (fresh (dom (heap w))). split; [|reflexivity].
  apply not_elem_of_dom, is_fresh.
Qed.

(** X9. [execCommand], [New] and [ReadConfig] never panic, and each
    returns either a result without an error or an error without a result,
    never both and never neither. *)
Theorem results_come_without_errors :
  (∀ (netNSPath : string) (input : option string) (args : list string)
     (w : World),
     (∃ out, (execCommand netNSPath input args w).1 = Val (Some out, None)) ∨
     (∃ e, (execCommand netNSPath input args w).1 = Val (None, Some e))) ∧
  (∀ (netNSPath : string) (w : World),
     (∃ l, (New netNSPath w).1 = Val (Ptr l, None)) ∨
     (∃ e, (New netNSPath w).1 = Val (nilptr, Some e))) ∧
  (∀ (netNSPath : string) (w : World),
     (∃ l, (ReadConfig netNSPath w).1 = Val (Ptr l, None)) ∨
     (∃ e, (ReadConfig netNSPath w).1 = Val (nilptr, Some e))).
Proof.
  split; [|split].
  - intros netNSPath input args w.
    destruct (execCommand_spec netNSPath input args w)
      as (cmd & evs & He & _).
    cbn zeta in He. rewrite He; cbn.
    destruct (run_err _); eauto.
  - intros netNSPath w. rewrite New_spec; cbn zeta.
    destruct (String.eqb (NSEnterBinPath w) EmptyString); [|cbn; eauto].
    destruct (os_LookPath (events w) "nsenter") as [path [e|]]; cbn; eauto.
  - intros netNSPath w.
    destruct (ReadConfig_outcome netNSPath w) as (cmd & evs & _ & HR & _).
    cbn zeta in HR. rewrite HR.
    destruct (run_err _); cbn; [eauto|].
    destruct (FromJSON _ _).2; eauto.
Qed.

(** X10. [ApplyConfig] on the nil pointer panics before anything happens:
    nothing is encoded, logged or run.  On a document that exists it never
    panics, and it returns no error exactly when the encoding succeeded and
    the [Run] of its command reported none. *)
Theorem ApplyConfig_nil_and_valid_pointer :
  (∀ (w : World),
     ApplyConfig nilptr w = (Panic "nil pointer dereference", w)) ∧
  (∀ (l : positive) (obj : Config) (w : World),
     heap w !! l = Some obj →
     (∃ err, (ApplyConfig (Ptr l) w).1 = Val err) ∧
     ((ApplyConfig (Ptr l) w).1 = Val None ↔
      ∃ data cmd h,
        ToJSON (Config_Config obj) = (data, None) ∧
        events (ApplyConfig (Ptr l) w).2 = h ++ [EvRun cmd] ∧
        run_err (run_result h cmd) = None)).
Proof.
  split; [intros w; apply ApplyConfig_nil|].
  intros l obj w Hl.
  pose proof (ApplyConfig_outcome l obj w Hl) as HA.
  destruct (ToJSON (Config_Config obj)) as [data [e|]].
  - rewrite HA; cbn. split; [eauto|].
    split; [discriminate|]. intros (d & c & h & [=] & _).
  - destruct HA as (cmd & evs & HA & _). cbn zeta in HA.
    rewrite HA; cbn. split; [eauto|]. split.
    + intros Hnone. exists data, cmd, (events w ++ evs).
      rewrite app_assoc. repeat split.
      destruct (run_err _); [discriminate|reflexivity].
    + intros (d & c & h & _ & Hev & Hrun).
      rewrite app_assoc in Hev. apply app_inj_tail in Hev as [<- [= <-]].
      rewrite Hrun; reflexivity.
Qed.

(** X11. When the document encodes to [data] and [ApplyConfig] returns an
    error, that error is around the error [Run] reported, and its text
    shows what the tool wrote on its standard error and the encoded
    document that was sent as [stdin:'...']. *)
Theorem ApplyConfig_failure_shows_stderr_and_input (l : positive)
    (obj : Config) (data : option string) (w : World) (E : error) :
  heap w !! l = Some obj →
  ToJSON (Config_Config obj) = (data, None) →
  (ApplyConfig (Ptr l) w).1 = Val (Some E) →
  ∃ cmd h err,
    events (ApplyConfig (Ptr l) w).2 = h ++ [EvRun cmd] ∧
    run_err (run_result h cmd) = Some err ∧
    Unwrap E = Some err ∧
    Contains (Error E) (Error err) ∧
    Contains (Error E) ("stdin:'" +:+ string_of_bytes data +:+ "'") ∧
    Contains (Error E)
      ("stderr:'" +:+ run_stderr (run_result h cmd) +:+ "'").
Proof.
  intros Hl Henc.
  pose proof (ApplyConfig_outcome l obj w Hl) as HA. rewrite Henc in HA.
  destruct HA as (cmd & evs & HA & _). cbn zeta in HA. rewrite HA; cbn.
  destruct (run_err (run_result (events w ++ evs) cmd)) as [err|] eqn:Hr;
    [|discriminate].
  intros [= <-]. exists cmd, (events w ++ evs), err.
  rewrite app_assoc, Hr.
  unfold failed_to_execute, fmt_Errorf_w; cbn [Error Unwrap].
  repeat split.
  - do 4 apply Contains_later. apply Contains_here.
  - do 6 apply Contains_later.
    exists " ", (" stdout:'" +:+
                 run_stdout (run_result (events w ++ evs) cmd) +:+
                 "' stderr:'" +:+
                 run_stderr (run_result (events w ++ evs) cmd) +:+ "'").
    rewrite ?append_assoc. reflexivity.
  - do 10 apply Contains_later.
    exists "' ", EmptyString.
    rewrite ?append_assoc, ?append_empty_r. reflexivity.
Qed.

(** X12. A document that [ReadConfig] returned for a namespace is applied
    to that namespace: it is in the heap, bound to the namespace it was read
    from, and [ApplyConfig] on it either returns the encode error without
    running anything or runs one command with [--net=] that namespace, the
    same two tool paths [ReadConfig] started from, the arguments [-j], [-f],
    [-], and the encoding as standard input. *)
Theorem ReadConfig_then_ApplyConfig (netNSPath : string) (w w1 : World)
    (l : positive) :
  ReadConfig netNSPath w = (Val (Ptr l, None), w1) →
  ∃ obj,
    heap w1 !! l = Some obj ∧
    NetNSPath obj = netNSPath ∧
    match ToJSON (Config_Config obj) with
    | (_, Some e) => ApplyConfig (Ptr l) w1 = (Val (Some e), w1)
    | (data, None) =>
        ∃ cmd,
          run_calls (events (ApplyConfig (Ptr l) w1).2) =
            run_calls (events w1) ++ [cmd] ∧
          Args cmd = NSEnterBinPath w :: ("--net=" +:+ netNSPath) :: "--" ::
                     NFTBinPath w :: ["-j"; "-f"; "-"] ∧
          Stdin cmd = data
    end.
Proof.
  destruct (ReadConfig_outcome netNSPath w) as (cmd0 & evs0 & _ & HR & _).
  cbn zeta in HR. rewrite HR.
  destruct (run_err _); [discriminate|].
  destruct (FromJSON _ _) as [cfg [e|]]; cbn; [discriminate|].
  intros [= <- <-].
  eexists. split; [apply lookup_insert_eq|]. split; [reflexivity|].
  match goal with
  | |- context [ApplyConfig (Ptr ?l) ?w1] =>
      pose proof (ApplyConfig_outcome l _ w1 (lookup_insert_eq _ _ _)) as HA
  end.
  cbn [Config_Config NetNSPath] in *.
  destruct (ToJSON cfg) as [data [e|]]; [exact HA|].
  destruct HA as (cmd & evs & HA & Hruns & Hargs & Hstdin & _).
  cbn zeta in HA. exists cmd. rewrite HA; cbn.
  rewrite !run_calls_app, Hruns. auto.
Qed.

(** X13. A document fresh from [New] is applied to the namespace it was
    made for, and what is sent is the encoding of the empty entity
    sequence: [ApplyConfig] on it either returns the encode error without
    running anything or runs one command with [--net=] that namespace and
    that encoding as standard input. *)
Theorem New_then_ApplyConfig (netNSPath : string) (w w1 : World)
    (l : positive) :
  New netNSPath w = (Val (Ptr l, None), w1) →
  match ToJSON {| Nftables := Some [] |} with
  | (_, Some e) => ApplyConfig (Ptr l) w1 = (Val (Some e), w1)
  | (data, None) =>
      ∃ cmd,
        run_calls (events (ApplyConfig (Ptr l) w1).2) =
          run_calls (events w1) ++ [cmd] ∧
        Args cmd = NSEnterBinPath w1 :: ("--net=" +:+ netNSPath) :: "--" ::
                   NFTBinPath w :: ["-j"; "-f"; "-"] ∧
        Stdin cmd = data
  end.
Proof.
  intros HN.
  assert (Hl : heap w1 !! l = Some (fresh_Config netNSPath (Some [])) ∧
               NFTBinPath w1 = NFTBinPath w).
  { revert HN. rewrite New_spec; cbn zeta.
    destruct (String.eqb (NSEnterBinPath w) EmptyString).
    1: destruct (os_LookPath (events w) "nsenter") as [path [e|]].
    all: intros [= <- <-]; cbn.
    all: split; try reflexivity; apply lookup_insert_eq. }
  destruct Hl as [Hl Hnft].
  pose proof (ApplyConfig_outcome l _ w1 Hl) as HA.
  cbn [Config_Config NetNSPath fresh_Config] in HA.
  destruct (ToJSON {| Nftables := Some [] |}) as [data [e|]]; [exact HA|].
  destruct HA as (cmd & evs & HA & Hruns & Hargs & Hstdin & _).
  cbn zeta in HA. exists cmd. rewrite HA; cbn.
  rewrite !run_calls_app, Hruns, <- Hnft. auto.
Qed.

(** X14. Nothing validates the ruleset-tool path.  With that path empty
    and a namespace-entry path that has a directory part, [New] still
    succeeds without a lookup, and [execCommand] still hands its command to
    the host, with the empty string where the ruleset tool belongs. *)
Theorem ruleset_tool_path_not_validated (netNSPath : string)
    (input : option string) (args : list string) (w : World) :
  NFTBinPath w = EmptyString →
  NSEnterBinPath w ≠ EmptyString →
  String.eqb (filepath_Base (NSEnterBinPath w)) (NSEnterBinPath w) = false →
  (∃ l, (New netNSPath w).1 = Val (Ptr l, None)) ∧
  events (New netNSPath w).2 = events w ∧
  ∃ cmd h,
    events (execCommand netNSPath input args w).2 = h ++ [EvRun cmd] ∧
    Args cmd = NSEnterBinPath w :: ("--net=" +:+ netNSPath) :: "--" ::
               EmptyString :: args ∧
    run_result h cmd = os_Run h cmd.
Proof.
  intros Hnft Hne Hbare. apply String.eqb_neq in Hne.
  rewrite New_spec; cbn zeta. rewrite Hne; cbn.
  split; [eauto|]. split; [reflexivity|].
  destruct (execCommand_spec netNSPath input args w)
    as (cmd & evs & He & _ & Hargs & _ & Hpath).
  destruct (Hpath Hbare) as (HP & HE & _).
  cbn zeta in He. exists cmd, (events w ++ evs).
  rewrite He; cbn. rewrite app_assoc, Hargs, Hnft.
  repeat split.
  unfold run_result. rewrite HE, HP, Hne. reflexivity.
Qed.

(** X15. Only [New] and [init] write the namespace-entry path:
    [execCommand], [ReadConfig] and [ApplyConfig] leave it as it is,
    although [ReadConfig] calls [New]. *)
Theorem NSEnterBinPath_kept_by_Read_and_Apply :
  (∀ (netNSPath : string) (input : option string) (args : list string)
     (w : World),
     NSEnterBinPath (execCommand netNSPath input args w).2 = NSEnterBinPath w) ∧
  (∀ (netNSPath : string) (w : World),
     NSEnterBinPath (ReadConfig netNSPath w).2 = NSEnterBinPath w) ∧
  (∀ (c : ptr) (w : World),
     NSEnterBinPath (ApplyConfig c w).2 = NSEnterBinPath w).
Proof.
  split; [|split].
  - intros netNSPath input args w.
    destruct (execCommand_spec netNSPath input args w)
      as (cmd & evs & He & _).
    cbn zeta in He; rewrite He; reflexivity.
  - intros netNSPath w.
    destruct (ReadConfig_outcome netNSPath w) as (cmd & evs & _ & HR & _).
    cbn zeta in HR; rewrite HR.
    destruct (run_err _); reflexivity.
  - intros c w. destruct c as [|l]; [rewrite ApplyConfig_nil; reflexivity|].
    destruct (heap w !! l) as [obj|] eqn:Hl.
    + pose proof (ApplyConfig_outcome l obj w Hl) as HA.
      destruct (ToJSON (Config_Config obj)) as [data [e|]].
      * rewrite HA; reflexivity.
      * destruct HA as (cmd & evs & HA & _).
        cbn zeta in HA; rewrite HA; reflexivity.
    + rewrite (ApplyConfig_dangling l w Hl); reflexivity.
Qed.

End Properties.

(** * The claims on the sample hosts *)

(** Reading on the good host yields the first document of the heap. *)
Example ReadConfig_good_host :
  let w := started good_host text_schema in
  (@ReadConfig good_host text_schema ns0 w).1 = Val (Ptr 1, None) ∧
  heap (@ReadConfig good_host text_schema ns0 w).2 !! 1%positive =
    Some (@fresh_Config text_schema ns0 (Some ["[table ip filter]"])).
Proof. split; vm_compute; reflexivity. Qed.

(** A rejected apply shows the tool's standard error in its error. *)
Example ApplyConfig_rejected_shows_stderr :
  ∃ E,
    (@ApplyConfig rejecting_host text_schema (Ptr 1)
       (two_documents rejecting_host text_schema)).1 = Val (Some E) ∧
    Contains (Error E) "Error: syntax error".
Proof.
  eexists. split; [vm_compute; reflexivity|].
  exists "failed to execute /usr/sbin/nsenter /usr/sbin/nsenter --net=/var/run/netns/ns0 -- /usr/sbin/nft -j -f -: exit status 1 stdin:'[]' stdout:'' stderr:'",
         "'".
  reflexivity.
Qed.

(** Without the namespace-entry tool [New] returns the lookup's error. *)
Example New_missing_tool :
  (@New bare_host text_schema ns0 (started bare_host text_schema)).1 =
    Val (nilptr,
         Some (errorString
                 "exec: nsenter: executable file not found in $PATH")).
Proof. vm_compute; reflexivity. Qed.

(** Applying the empty document of [ns0] on the good host. *)
Lemma ReadConfig_ApplyConfig_invocations_witness :
  let w := two_documents good_host text_schema in
  (heap w !! 1%positive = Some (fresh_Config ns0 (Some [])) ∧
   text_ToJSON {| Nftables := Some [] |} = (Some "[]", None)) ∧
  events (@ApplyConfig good_host text_schema (Ptr 1) w).2 =
    events (@execCommand good_host text_schema ns0 (Some "[]")
              ["-j"; "-f"; "-"] w).2 ∧
  ∃ cmd,
    run_calls (events (@ApplyConfig good_host text_schema (Ptr 1) w).2) =
      run_calls (events w) ++ [cmd] ∧
    Args cmd = NSEnterBinPath w :: "--net=/var/run/netns/ns0" :: "--" ::
               NFTBinPath w :: ["-j"; "-f"; "-"] ∧
    Stdin cmd = Some "[]".
Proof.
  intros w. split; [split; vm_compute; reflexivity|].
  apply (proj2 (@ReadConfig_ApplyConfig_invocations good_host text_schema)
           1%positive (fresh_Config ns0 (Some [])) (Some "[]") w).
  - vm_compute; reflexivity.
  - vm_compute; reflexivity.
Defined.

(** [New] on the good host, right after [init]. *)
Lemma New_document_initialized_witness :
  let w := started good_host text_schema in
  let w' := (@New good_host text_schema ns0 w).2 in
  @New good_host text_schema ns0 w = (Val (Ptr 1, None), w') ∧
  ∃ l obj,
    Ptr 1 = Ptr l ∧
    heap w !! l = None ∧
    heap w' !! l = Some obj ∧
    NetNSPath obj = ns0 ∧
    Nftables (Config_Config obj) = Some [].
Proof.
  intros w w'. split; [vm_compute; reflexivity|].
  apply (@New_document_initialized good_host text_schema ns0 w w' (Ptr 1)).
  vm_compute; reflexivity.
Defined.

(** Applying a document whose entity sequence was never set: the sample
    encoder refuses it. *)
Lemma ApplyConfig_encode_failure_witness :
  let w := unset_document good_host text_schema in
  let e := errorString "json: unsupported value" in
  (heap w !! 1%positive = Some (fresh_Config ns0 None) ∧
   text_ToJSON {| Nftables := None |} = (None, Some e)) ∧
  @ApplyConfig good_host text_schema (Ptr 1) w = (Val (Some e), w) ∧
  events (@ApplyConfig good_host text_schema (Ptr 1) w).2 = events w ∧
  run_calls (events (@ApplyConfig good_host text_schema (Ptr 1) w).2) =
    run_calls (events w).
Proof.
  intros w e. split; [split; vm_compute; reflexivity|].
  apply (@ApplyConfig_encode_failure good_host text_schema
           1%positive (fresh_Config ns0 None) None e w).
  - vm_compute; reflexivity.
  - vm_compute; reflexivity.
Defined.

(** The ruleset tool prints [x]: the decoder's complaint quotes it, and so
    does the error of [ReadConfig], whose text is otherwise fixed. *)
Lemma ReadConfig_decode_failure_witness :
  let w := started garbling_host text_schema in
  let perr :=
    errorString "invalid character 'x' looking for beginning of value" in
  (@execCommand garbling_host text_schema ns0 None ["-j"; "list"; "ruleset"] w
     = (Val (Some "x", None),
        (@execCommand garbling_host text_schema ns0 None
           ["-j"; "list"; "ruleset"] w).2) ∧
   text_FromJSON {| Nftables := Some [] |} "x"
     = ({| Nftables := Some [] |}, Some perr)) ∧
  ∃ E,
    (@ReadConfig garbling_host text_schema ns0 w).1 = Val (nilptr, Some E) ∧
    E = fmt_Errorf ("failed to list ruleset: " +:+ Error perr) ∧
    Error E = "failed to list ruleset: " +:+ Error perr ∧
    Contains (Error E) "failed to list ruleset" ∧
    Contains (Error E) (Error perr) ∧
    Unwrap E = None.
Proof.
  intros w perr. split; [split; vm_compute; reflexivity|].
  apply (@ReadConfig_decode_failure garbling_host text_schema ns0 w
           (@execCommand garbling_host text_schema ns0 None
              ["-j"; "list"; "ruleset"] w).2
           "x" {| Nftables := Some [] |} perr).
  - vm_compute; reflexivity.
  - vm_compute; reflexivity.
Defined.

(** C7 as stated fails on this host: the executor succeeds with the
    standard output [x], decoding fails, and the text of the error that
    [ReadConfig] returns contains that standard output; nor does the error
    unwrap to anything. *)
Lemma ReadConfig_decode_error_quotes_stdout :
  let w := started garbling_host text_schema in
  (@execCommand garbling_host text_schema ns0 None ["-j"; "list"; "ruleset"] w).1
    = Val (Some "x", None) ∧
  ∃ E,
    (@ReadConfig garbling_host text_schema ns0 w).1 = Val (nilptr, Some E) ∧
    Contains (Error E) "x" ∧
    Unwrap E = None.
Proof.
  intros w. split; [vm_compute; reflexivity|].
  eexists. split; [vm_compute; reflexivity|].
  split; [|reflexivity].
  exists "failed to list ruleset: invalid character '",
         "' looking for beginning of value".
  reflexivity.
Qed.

(** The empty documents of [ns0] and [ns1] on the good host. *)
Lemma NetNSPath_not_serialized_witness :
  let w := two_documents good_host text_schema in
  (heap w !! 1%positive = Some (fresh_Config ns0 (Some [])) ∧
   heap w !! 2%positive = Some (fresh_Config ns1 (Some [])) ∧
   Config_Config (@fresh_Config text_schema ns0 (Some [])) =
     Config_Config (@fresh_Config text_schema ns1 (Some []))) ∧
  (@Config_ToJSON text_schema (Ptr 1) w).1 =
    Val (text_ToJSON {| Nftables := Some [] |}) ∧
  (@Config_ToJSON text_schema (Ptr 1) w).1 =
    (@Config_ToJSON text_schema (Ptr 2) w).1 ∧
  Stdin <$> run_calls (events (@ApplyConfig good_host text_schema (Ptr 1) w).2) =
    Stdin <$> run_calls (events (@ApplyConfig good_host text_schema (Ptr 2) w).2).
Proof.
  intros w. split; [repeat split; vm_compute; reflexivity|].
  apply (@NetNSPath_not_serialized good_host text_schema 1%positive 2%positive
           (fresh_Config ns0 (Some [])) (fresh_Config ns1 (Some [])) w).
  - vm_compute; reflexivity.
  - vm_compute; reflexivity.
  - reflexivity.
Defined.

(** On a host without tools the process-wide path is empty after [init];
    on a host whose ruleset tool fails the executor's error is what
    [ReadConfig] returns. *)
Lemma ReadConfig_unresolved_path_witness :
  (let w := started rejecting_host text_schema in
   let r := @execCommand rejecting_host text_schema ns0 None
              ["-j"; "list"; "ruleset"] w in
   let e := wrapError
     "failed to execute /usr/sbin/nsenter /usr/sbin/nsenter --net=/var/run/netns/ns0 -- /usr/sbin/nft -j list ruleset: exit status 1 stdin:'' stdout:'' stderr:'Error: syntax error'"
     (errorString "exit status 1") in
   r = (Val (None, Some e), r.2) ∧
   @ReadConfig rejecting_host text_schema ns0 w = (Val (nilptr, Some e), r.2)) ∧
  (let w := started bare_host text_schema in
   NSEnterBinPath w = EmptyString ∧
   ∃ cmd r w',
     @ReadConfig bare_host text_schema ns0 w =
       (Val (nilptr,
             Some (failed_to_execute cmd None r
                     (errors_New "exec: no command"))),
        w') ∧
     (@execCommand bare_host text_schema ns0 None ["-j"; "list"; "ruleset"] w).2
       = w' ∧
     Path cmd = EmptyString ∧
     run_calls (events w') = run_calls (events w) ++ [cmd] ∧
     lookups (events w') = lookups (events w) ∧
     NSEnterBinPath w' = EmptyString ∧
     heap w' = heap w).
Proof.
  split.
  - intros w r e. split; [vm_compute; reflexivity|].
    apply (proj1 (@ReadConfig_unresolved_path rejecting_host text_schema)
             ns0 w r.2 None e).
    vm_compute; reflexivity.
  - intros w. split; [vm_compute; reflexivity|].
    apply (proj2 (@ReadConfig_unresolved_path bare_host text_schema) ns0 w).
    vm_compute; reflexivity.
Defined.

(** * The further properties on the sample hosts *)

(** A rejected read on the rejecting host: the path comes twice. *)
Lemma execCommand_error_names_tool_twice_witness :
  let w := started rejecting_host text_schema in
  let E := wrapError
    "failed to execute /usr/sbin/nsenter /usr/sbin/nsenter --net=/var/run/netns/ns0 -- /usr/sbin/nft -j list ruleset: exit status 1 stdin:'' stdout:'' stderr:'Error: syntax error'"
    (errorString "exit status 1") in
  (String.eqb (filepath_Base (NSEnterBinPath w)) (NSEnterBinPath w) = false ∧
   (@execCommand rejecting_host text_schema ns0 None
      ["-j"; "list"; "ruleset"] w).1 = Val (None, Some E)) ∧
  ∃ rest,
    Error E =
      "failed to execute " +:+ NSEnterBinPath w +:+ " " +:+
      NSEnterBinPath w +:+ " --net=" +:+ ns0 +:+ " -- " +:+
      NFTBinPath w +:+ rest.
Proof.
  intros w E. split; [split; vm_compute; reflexivity|].
  apply (@execCommand_error_names_tool_twice rejecting_host text_schema
           ns0 None ["-j"; "list"; "ruleset"] w E).
  - vm_compute; reflexivity.
  - vm_compute; reflexivity.
Defined.

(** Two documents made one after the other on the good host. *)
Lemma New_documents_distinct_witness :
  let w := started good_host text_schema in
  let w1 := (@New good_host text_schema ns0 w).2 in
  let w2 := (@New good_host text_schema ns1 w1).2 in
  (@New good_host text_schema ns0 w = (Val (Ptr 1, None), w1) ∧
   @New good_host text_schema ns1 w1 = (Val (Ptr 2, None), w2)) ∧
  (1 ≠ 2)%positive ∧
  heap w2 !! 1%positive = Some (fresh_Config ns0 (Some [])) ∧
  heap w2 !! 2%positive = Some (fresh_Config ns1 (Some [])).
Proof.
  intros w w1 w2. split; [split; vm_compute; reflexivity|].
  apply (proj1 (@New_documents_distinct good_host text_schema)
           ns0 ns1 w w1 w2 1%positive 2%positive).
  - vm_compute; reflexivity.
  - vm_compute; reflexivity.
Defined.

(** On the late host the first [New] fails and the second one succeeds. *)
Lemma New_failed_lookup_is_retried_witness :
  let w := started late_host text_schema in
  let e := errorString "exec: nsenter: executable file not found in $PATH" in
  let w1 := (@New late_host text_schema ns0 w).2 in
  (NSEnterBinPath w = EmptyString ∧
   (@os_LookPath late_host (events w) "nsenter").2 = Some e) ∧
  (@New late_host text_schema ns0 w).1 = Val (nilptr, Some e) ∧
  NSEnterBinPath w1 = EmptyString ∧
  events (@New late_host text_schema ns1 w1).2 =
    events w ++ [EvLookPath "nsenter"; EvLookPath "nsenter"] ∧
  match @os_LookPath late_host (events w ++ [EvLookPath "nsenter"]) "nsenter"
  with
  | (_, Some e') => (@New late_host text_schema ns1 w1).1 = Val (nilptr, Some e')
  | (path, None) =>
      (∃ l, (@New late_host text_schema ns1 w1).1 = Val (Ptr l, None)) ∧
      NSEnterBinPath (@New late_host text_schema ns1 w1).2 = path
  end.
Proof.
  intros w e w1. split; [split; vm_compute; reflexivity|].
  apply (@New_failed_lookup_is_retried late_host text_schema ns0 ns1 w e).
  - vm_compute; reflexivity.
  - vm_compute; reflexivity.
Defined.

(** A good read on the good host. *)
Lemma ReadConfig_success_witness :
  let w := started good_host text_schema in
  let w1 := (@execCommand good_host text_schema ns0 None
               [cmdJSON; cmdList; cmdRuleset] w).2 in
  let cfg := {| Nftables := Some ["[table ip filter]"] |} in
  (@execCommand good_host text_schema ns0 None [cmdJSON; cmdList; cmdRuleset] w
     = (Val (Some "[table ip filter]", None), w1) ∧
   text_FromJSON {| Nftables := Some [] |} "[table ip filter]" = (cfg, None)) ∧
  ∃ l,
    heap w !! l = None ∧
    @ReadConfig good_host text_schema ns0 w =
      (Val (Ptr l, None),
       set_heap (<[l := @Build_Config text_schema cfg ns0]> (heap w)) w1).
Proof.
  intros w w1 cfg. split; [split; vm_compute; reflexivity|].
  apply (@ReadConfig_success good_host text_schema ns0 w w1
           "[table ip filter]" cfg).
  - vm_compute; reflexivity.
  - vm_compute; reflexivity.
Defined.

(** Applying the first of two documents on the good host. *)
Lemma ApplyConfig_nil_and_valid_pointer_witness :
  let w := two_documents good_host text_schema in
  let obj := @fresh_Config text_schema ns0 (Some []) in
  heap w !! 1%positive = Some obj ∧
  (∃ err, (@ApplyConfig good_host text_schema (Ptr 1) w).1 = Val err) ∧
  ((@ApplyConfig good_host text_schema (Ptr 1) w).1 = Val None ↔
   ∃ data cmd h,
     text_ToJSON (Config_Config obj) = (data, None) ∧
     events (@ApplyConfig good_host text_schema (Ptr 1) w).2 = h ++ [EvRun cmd] ∧
     run_err (@run_result good_host h cmd) = None).
Proof.
  intros w obj. split; [vm_compute; reflexivity|].
  apply (proj2 (@ApplyConfig_nil_and_valid_pointer good_host text_schema)
           1%positive obj w).
  vm_compute; reflexivity.
Defined.

(** Applying the first of two documents on the rejecting host. *)
Lemma ApplyConfig_failure_shows_stderr_and_input_witness :
  let w := two_documents rejecting_host text_schema in
  let obj := @fresh_Config text_schema ns0 (Some []) in
  let E := wrapError
    "failed to execute /usr/sbin/nsenter /usr/sbin/nsenter --net=/var/run/netns/ns0 -- /usr/sbin/nft -j -f -: exit status 1 stdin:'[]' stdout:'' stderr:'Error: syntax error'"
    (errorString "exit status 1") in
  (heap w !! 1%positive = Some obj ∧
   text_ToJSON (Config_Config obj) = (Some "[]", None) ∧
   (@ApplyConfig rejecting_host text_schema (Ptr 1) w).1 = Val (Some E)) ∧
  ∃ cmd h err,
    events (@ApplyConfig rejecting_host text_schema (Ptr 1) w).2
      = h ++ [EvRun cmd] ∧
    run_err (@run_result rejecting_host h cmd) = Some err ∧
    Unwrap E = Some err ∧
    Contains (Error E) (Error err) ∧
    Contains (Error E) ("stdin:'" +:+ string_of_bytes (Some "[]") +:+ "'") ∧
    Contains (Error E)
      ("stderr:'" +:+ run_stderr (@run_result rejecting_host h cmd) +:+ "'").
Proof.
  intros w obj E. split; [repeat split; vm_compute; reflexivity|].
  apply (@ApplyConfig_failure_shows_stderr_and_input rejecting_host
           text_schema 1%positive obj (Some "[]") w E).
  - vm_compute; reflexivity.
  - vm_compute; reflexivity.
  - vm_compute; reflexivity.
Defined.

(** Reading and then applying on the good host. *)
Lemma ReadConfig_then_ApplyConfig_witness :
  let w := started good_host text_schema in
  let w1 := (@ReadConfig good_host text_schema ns0 w).2 in
  @ReadConfig good_host text_schema ns0 w = (Val (Ptr 1, None), w1) ∧
  ∃ obj,
    heap w1 !! 1%positive = Some obj ∧
    NetNSPath obj = ns0 ∧
    match text_ToJSON (Config_Config obj) with
    | (_, Some e) =>
        @ApplyConfig good_host text_schema (Ptr 1) w1 = (Val (Some e), w1)
    | (data, None) =>
        ∃ cmd,
          run_calls (events (@ApplyConfig good_host text_schema (Ptr 1) w1).2) =
            run_calls (events w1) ++ [cmd] ∧
          Args cmd = NSEnterBinPath w :: ("--net=" +:+ ns0) :: "--" ::
                     NFTBinPath w :: ["-j"; "-f"; "-"] ∧
          Stdin cmd = data
    end.
Proof.
  intros w w1. split; [vm_compute; reflexivity|].
  apply (@ReadConfig_then_ApplyConfig good_host text_schema ns0 w w1
           1%positive).
  vm_compute; reflexivity.
Defined.

(** Making and then applying on the good host. *)
Lemma New_then_ApplyConfig_witness :
  let w := started good_host text_schema in
  let w1 := (@New good_host text_schema ns0 w).2 in
  @New good_host text_schema ns0 w = (Val (Ptr 1, None), w1) ∧
  match text_ToJSON {| Nftables := Some [] |} with
  | (_, Some e) =>
      @ApplyConfig good_host text_schema (Ptr 1) w1 = (Val (Some e), w1)
  | (data, None) =>
      ∃ cmd,
        run_calls (events (@ApplyConfig good_host text_schema (Ptr 1) w1).2) =
          run_calls (events w1) ++ [cmd] ∧
        Args cmd = NSEnterBinPath w1 :: ("--net=" +:+ ns0) :: "--" ::
                   NFTBinPath w :: ["-j"; "-f"; "-"] ∧
        Stdin cmd = data
  end.
Proof.
  intros w w1. split; [vm_compute; reflexivity|].
  apply (@New_then_ApplyConfig good_host text_schema ns0 w w1 1%positive).
  vm_compute; reflexivity.
Defined.

(** A host without the ruleset tool: the command is run all the same. *)
Lemma ruleset_tool_path_not_validated_witness :
  let w := started no_nft_host text_schema in
  (NFTBinPath w = EmptyString ∧
   NSEnterBinPath w ≠ EmptyString ∧
   String.eqb (filepath_Base (NSEnterBinPath w)) (NSEnterBinPath w) = false) ∧
  (∃ l, (@New no_nft_host text_schema ns0 w).1 = Val (Ptr l, None)) ∧
  events (@New no_nft_host text_schema ns0 w).2 = events w ∧
  ∃ cmd h,
    events (@execCommand no_nft_host text_schema ns0 None
              ["-j"; "list"; "ruleset"] w).2 = h ++ [EvRun cmd] ∧
    Args cmd = NSEnterBinPath w :: ("--net=" +:+ ns0) :: "--" ::
               EmptyString :: ["-j"; "list"; "ruleset"] ∧
    @run_result no_nft_host h cmd = @os_Run no_nft_host h cmd.
Proof.
  intros w.
  assert (H1 : NFTBinPath w = EmptyString) by (vm_compute; reflexivity).
  assert (H2 : NSEnterBinPath w ≠ EmptyString) by (vm_compute; discriminate).
  assert (H3 : String.eqb (filepath_Base (NSEnterBinPath w))
                 (NSEnterBinPath w) = false) by (vm_compute; reflexivity).
  split; [exact (conj H1 (conj H2 H3))|].
  exact (@ruleset_tool_path_not_validated no_nft_host text_schema ns0 None
           ["-j"; "list"; "ruleset"] w H1 H2 H3).
Defined.
